(** * Authentication controller of the travel API

    A shallow embedding of [src/Controllers/authController.js]: session
    issuance ([signToken], [createSignedToken], [signup], [login]), the
    access gate ([protect]) and the password-reset handshake
    ([forgotPassword], [resetPassword], [updatePassword]).

    The controller is written against collaborators that live outside the
    file: the [jsonwebtoken] and [crypto] libraries, the mailer, and the
    Mongoose model [Models/User].  Library primitives are taken as
    parameters of the development; the model's methods and hooks are
    written out from the specification and marked as such. *)

From Stdlib Require Import String Ascii ZArith List Bool Lia.
Import ListNotations.

Open Scope string_scope.
Open Scope Z_scope.

(** ** Documents of the user collection *)

Definition ID := string.

(** An identity as the controller sees it: a Mongoose document whose
    optional paths may be [undefined] ([None]). Instants are milliseconds
    on the clock of [Date.now()]. *)
Record User := mkUser {
  _id : ID;
  name : string;
  email : string;
  role : string;
  password : option string;
  confirmPassword : option string;
  passwordChangedAt : option Z;
  passwordResetToken : option string;
  passwordResetExpires : option Z
}.

Definition set_password (v : option string) (u : User) : User :=
  mkUser (_id u) (name u) (email u) (role u) v (confirmPassword u)
         (passwordChangedAt u) (passwordResetToken u) (passwordResetExpires u).

Definition set_confirmPassword (v : option string) (u : User) : User :=
  mkUser (_id u) (name u) (email u) (role u) (password u) v
         (passwordChangedAt u) (passwordResetToken u) (passwordResetExpires u).

Definition set_passwordChangedAt (v : option Z) (u : User) : User :=
  mkUser (_id u) (name u) (email u) (role u) (password u) (confirmPassword u)
         v (passwordResetToken u) (passwordResetExpires u).

Definition set_passwordResetToken (v : option string) (u : User) : User :=
  mkUser (_id u) (name u) (email u) (role u) (password u) (confirmPassword u)
         (passwordChangedAt u) v (passwordResetExpires u).

Definition set_passwordResetExpires (v : option Z) (u : User) : User :=
  mkUser (_id u) (name u) (email u) (role u) (password u) (confirmPassword u)
         (passwordChangedAt u) (passwordResetToken u) v.

Definition opt_string_eqb (a b : option string) : bool :=
  match a, b with
  | Some x, Some y => String.eqb x y
  | None, None => true
  | _, _ => false
  end.

(** ** JSON values written by [res.json] *)

#[local] Set Warnings "-register-all".

Inductive Json :=
| JStr (s : string)
| JNum (n : Z)
| JObj (fields : list (string * Json)).

Fixpoint field (k : string) (fs : list (string * Json)) : option Json :=
  match fs with
  | [] => None
  | (k', v) :: rest => if String.eqb k k' then Some v else field k rest
  end.

Definition opt_field (k : string) (mk : string -> Json) (v : option string)
  : list (string * Json) :=
  match v with Some s => [(k, mk s)] | None => [] end.

Definition opt_date (k : string) (v : option Z) : list (string * Json) :=
  match v with Some t => [(k, JNum t)] | None => [] end.

(** Serialisation of a document: a path holding [undefined] is left out,
    as [JSON.stringify] does. *)
Definition toJSON (u : User) : list (string * Json) :=
  [("_id", JStr (_id u)); ("name", JStr (name u));
   ("email", JStr (email u)); ("role", JStr (role u))]
  ++ opt_field "password" JStr (password u)
  ++ opt_field "confirmPassword" JStr (confirmPassword u)
  ++ opt_date "passwordChangedAt" (passwordChangedAt u)
  ++ opt_field "passwordResetToken" JStr (passwordResetToken u)
  ++ opt_date "passwordResetExpires" (passwordResetExpires u).

(** ** Requests, responses and errors *)

Record Request := mkRequest {
  authorization : option string;      (* req.headers.authorization *)
  body_name : option string;
  body_email : option string;
  body_password : option string;
  body_confirmPassword : option string;
  body_currentPassword : option string;
  body_role : option string;
  params_token : string;              (* req.params.token *)
  protocol : string;                  (* req.protocol *)
  host : string;                      (* req.get("host") *)
  user : option User                  (* req.user *)
}.

Definition set_user (u : User) (r : Request) : Request :=
  mkRequest (authorization r) (body_name r) (body_email r) (body_password r)
            (body_confirmPassword r) (body_currentPassword r) (body_role r)
            (params_token r) (protocol r) (host r) (Some u).

Record CookieOptions := mkCookieOptions {
  expires : Z;
  httpOnly : bool;
  secure : bool
}.

Record Response := mkResponse {
  status : Z;
  cookie : option (string * string * CookieOptions);
  body : Json
}.

(** [new AppError(message, statusCode)] *)
Record AppError := mkAppError {
  message : string;
  statusCode : Z
}.

(** The two ways [jwt.verify] fails: [JsonWebTokenError] (bad signature,
    malformed token, wrong key or algorithm) and [TokenExpiredError]. *)
Inductive JwtFailure := JsonWebTokenError | TokenExpiredError.

(** Exceptions raised by the collaborators inside a handler body:
    [jwt.verify] refusing a token, the store refusing a document or a
    duplicate, a property read on [undefined], [jwt.sign] refusing its
    arguments, and [res.cookie] refusing an invalid expiry date. *)
Inductive Exn :=
| JwtException (e : JwtFailure)
| ValidationError (msg : string)
| DuplicateKey
| TypeError
| SignError
| CookieError.

(** What one run of a handler body does with the request: it writes a
    response, calls [next()] with the request as it then is, calls
    [next(err)] with an [AppError] it built itself, or its promise is
    rejected with an exception of a collaborator. *)
Inductive Outcome :=
| Responded (r : Response)
| NextOk (rq : Request)
| NextErr (e : AppError)
| Rejected (x : Exn).

Record Mail := mkMail {
  mail_email : string;
  mail_subject : string;
  mail_responseMessage : string
}.

(** The world outside the handler: the user collection and the mails the
    notifier has accepted. *)
Record World := mkWorld {
  users : list User;
  outbox : list Mail
}.

(** What a request reads from the runtime: the clock, the bytes of
    [crypto.randomBytes] in hex, and the next object id of the store. *)
Record Ambient := mkAmbient {
  now : Z;
  random_hex : string;
  object_id : ID
}.

(** [process.env] *)
Record Config := mkConfig {
  JWT_SECRET : string;
  JWT_EXPIRES_IN : string;
  JWT_COOKIE_EXPIRES_IN : Z;
  NODE_ENV : string
}.

(** ** Handler bodies as state-passing computations with early return *)

Inductive Step (A : Type) :=
| Go (a : A)
| Stop (o : Outcome).
Arguments Go {A} a.
Arguments Stop {A} o.

Definition Act (A : Type) := World -> World * Step A.

Definition ret {A} (a : A) : Act A := fun w => (w, Go a).

Definition stop {A} (o : Outcome) : Act A := fun w => (w, Stop o).

Definition bind {A B} (m : Act A) (k : A -> Act B) : Act B :=
  fun w =>
    match m w with
    | (w', Go a) => k a w'
    | (w', Stop o) => (w', Stop o)
    end.

Notation "x <- m ;; k" := (bind m (fun x => k))
  (at level 61, m at next level, right associativity).

Definition run (m : Act Outcome) (w : World) : World * Outcome :=
  match m w with
  | (w', Go o) => (w', o)
  | (w', Stop o) => (w', o)
  end.

(** ** Strings as JavaScript reads them *)

(** [!v] on a body field that is absent or a string. *)
Definition falsy (v : option string) : bool :=
  match v with
  | None => true
  | Some s => String.eqb s ""
  end.

(** [s.split(sep)] for a one-character separator. *)
Fixpoint split (sep : ascii) (s : string) : list string :=
  match s with
  | EmptyString => [""]
  | String c rest =>
      if Ascii.eqb c sep then "" :: split sep rest
      else match split sep rest with
           | h :: t => String c h :: t
           | [] => [String c ""]
           end
  end.

Definition space : ascii := " "%char.
Definition newline : string := String (ascii_of_nat 10) "".

(** Lower case of the ASCII letters. *)
Definition lower_ascii (c : ascii) : ascii :=
  let n := nat_of_ascii c in
  if ((65 <=? n) && (n <=? 90))%nat then ascii_of_nat (n + 32) else c.

Fixpoint lower (s : string) : string :=
  match s with
  | EmptyString => EmptyString
  | String c rest => String (lower_ascii c) (lower rest)
  end.

(** ** The token codec ([jsonwebtoken]) *)

(** The payload [jwt.verify] hands back: [decoder.id] and [decoder.iat]. *)
Record Decoded := mkDecoded {
  d_id : ID;
  d_iat : Z
}.

(** [jwt_sign id key expiresIn t] is [jwt.sign({ id }, key, { expiresIn })]
    at instant [t], [None] when the library throws (a missing key, an
    [expiresIn] it cannot read); [jwt_verify token key t] is
    [jwt.verify(token, key)]; [jwt_decode] reads the payload's id
    without verifying. The two laws are the library's contract: a signed
    token carries the id it was signed over, and verification returns
    the payload the token carries. *)
Class TokenCodec := {
  jwt_sign : ID -> string -> string -> Z -> option string;
  jwt_verify : string -> string -> Z -> JwtFailure + Decoded;
  jwt_decode : string -> option ID;
  jwt_decode_sign : forall id key e t tok,
      jwt_sign id key e t = Some tok -> jwt_decode tok = Some id;
  jwt_verify_decode : forall tok key t d,
      jwt_verify tok key t = inr d -> jwt_decode tok = Some (d_id d)
}.

(** ** Sample collaborators

    Small stand-ins for the libraries and a sample collection, used to run
    the controller on concrete requests. *)

Module Sample.

Definition mac (key : string) : ascii :=
  match key with
  | String c _ => c
  | EmptyString => "0"%char
  end.

Definition sign (id : ID) (key _e : string) (_t : Z) : option string :=
  if String.eqb key "" then None else Some (String (mac key) id).

Definition verify (tok key : string) (t : Z) : JwtFailure + Decoded :=
  match tok with
  | String c rest =>
      if Ascii.eqb c (mac key)
      then if t <? 9000 then inr (mkDecoded rest 1000)
           else inl TokenExpiredError
      else inl JsonWebTokenError
  | EmptyString => inl JsonWebTokenError
  end.

Definition decode (tok : string) : option ID :=
  match tok with
  | String _ rest => Some rest
  | EmptyString => None
  end.

Lemma decode_sign id key e t tok :
  sign id key e t = Some tok -> decode tok = Some id.
Proof.
  unfold sign. destruct (String.eqb key ""); [discriminate|].
  intros H. injection H as <-. reflexivity.
Qed.

Lemma verify_decode tok key t d :
  verify tok key t = inr d -> decode tok = Some (d_id d).
Proof.
  unfold verify, decode. destruct tok as [|c rest]; [discriminate|].
  destruct (Ascii.eqb c (mac key)); [|discriminate].
  destruct (t <? 9000); [|discriminate].
  intros H. injection H as <-. reflexivity.
Qed.

Definition codec : TokenCodec :=
  Build_TokenCodec sign verify decode decode_sign verify_decode.

Definition cfg : Config := mkConfig "secret" "90d" 90 "development".

Definition sha256hex (s : string) : string := "sha256:" ++ s.

Definition hashCredential (s : string) : string := "bcrypt:" ++ s.

Definition correctPassword (candidate stored : option string) : bool :=
  match candidate, stored with
  | Some c, Some h => String.eqb h (hashCredential c)
  | _, _ => false
  end.

Definition validate (u : User) : option string :=
  if opt_string_eqb (password u) (confirmPassword u)
  then None
  else Some "Passwords are not the same".

Definition transport (m : Mail) : bool :=
  negb (String.eqb (mail_email m) "bounce@x.com").

Definition normalizeEmail (e : string) : string := lower e.

Definition ana : User :=
  mkUser "u1" "Ana" "ana@x.com" "user" (Some "bcrypt:secret12")
         None None None None.

Definition bob : User :=
  mkUser "u2" "Bob" "bounce@x.com" "user" (Some "bcrypt:hunter22")
         None None None None.

Definition world : World := mkWorld [ana; bob] [].

(** Ana after a password change at instant 1001. *)
Definition ana_changed : User := set_passwordChangedAt (Some 1001) ana.

(** Ana holding the digest of the token "tok", which expires ten minutes
    after instant 0. *)
Definition ana_resetting : User :=
  set_passwordResetExpires (Some (0 + 10 * 60000))
    (set_passwordResetToken (Some (sha256hex "tok")) ana).

Definition request : Request :=
  mkRequest None None None None None None None "" "https" "travel.io" None.

Definition with_body (e p c : option string) : Request :=
  mkRequest None (Some "Cy") e p c None None "" "https" "travel.io" None.

Definition with_header (h : string) : Request :=
  mkRequest (Some h) None None None None None None "" "https" "travel.io"
            None.

Definition with_token (tok : string) (p c : option string) : Request :=
  mkRequest None None None p c None None tok "https" "travel.io" None.

Definition at_ (t : Z) (rnd : string) : Ambient := mkAmbient t rnd "u9".

End Sample.

(** ** The controller *)

Section Controller.

Context {codec : TokenCodec}.

(** [process.env], read when a handler runs. *)
Variable cfg : Config.

(** [crypto.createHash("sha256").update(x).digest("hex")] *)
Variable sha256hex : string -> string.

(** The adaptive password hash used by the model's save hook. *)
Variable hashCredential : string -> string.

(** [user.correctPassword(candidate, userPassword)], the model's
    credential check; either argument may be [undefined]. *)
Variable correctPassword : option string -> option string -> bool.

(** The schema validation the store runs on [create] and on a validating
    [save]: [Some msg] when the document is refused. *)
Variable validate : User -> option string.

(** The role a new document gets when the request names none. *)
Variable defaultRole : string.

(** The case normalisation the store applies to the email of a new
    document. *)
Variable normalizeEmail : string -> string.

(** The transport behind [sendMail]: [true] when the mail is accepted,
    [false] when the call throws. *)
Variable transport : Mail -> bool.

(** *** The store as the controller uses it *)

Definition has_id (id : ID) (d : User) : bool := String.eqb (_id d) id.

(** [User.findOne(filter)]: the first document the filter matches. *)
Definition findOne (filter : User -> bool) : Act (option User) :=
  fun w => (w, Go (find filter (users w))).

(** [User.findById(id)] *)
Definition findById (id : ID) : Act (option User) :=
  findOne (has_id id).

(** The filter [{ email: v }]. A document always has an email, so a
    value that is [undefined] matches nothing. *)
Definition by_email (v : option string) (d : User) : bool :=
  match v with
  | Some e => String.eqb (email d) e
  | None => false
  end.

(** The filter [{ passwordResetToken: h, passwordResetExpires: { $gt: t } }]:
    both conditions in the one query. *)
Definition by_reset_token (h : string) (t : Z) (d : User) : bool :=
  opt_string_eqb (passwordResetToken d) (Some h)
  && match passwordResetExpires d with
     | Some e => t <? e
     | None => false
     end.

(** [doc.isModified("password")]: the path differs from what is stored,
    or the document is new. *)
Definition passwordModified (w : World) (u : User) : bool :=
  match find (has_id (_id u)) (users w) with
  | Some d => negb (opt_string_eqb (password d) (password u))
  | None => true
  end.

(** Modelled from the spec: the save hooks of [Models/User], which is
    not among the sources. "Credential is hashed before storage" and a
    password change "update[s] the credential-changed timestamp"; a
    save that leaves the password alone changes nothing. *)
Definition preSave (t : Z) (modified : bool) (u : User) : User :=
  if modified
  then set_passwordChangedAt (Some t)
         (set_password (option_map hashCredential (password u)) u)
  else u.

Definition replace_doc (u : User) (ds : list User) : list User :=
  map (fun d => if has_id (_id u) d then u else d) ds.

(** Modelled from the spec: [user.save({ validateBeforeSave })] of
    [Models/User]. The store's [save(identity, {validate: bool})] runs
    the field validation unless told not to, applies the hooks and
    writes the document under its id. The handler goes on with the same
    object, so the saved document is returned. *)
Definition save (validateBeforeSave : bool) (t : Z) (u : User) : Act User :=
  fun w =>
    match (if validateBeforeSave then validate u else None) with
    | Some msg => (w, Stop (Rejected (ValidationError msg)))
    | None =>
        let u' := preSave t (passwordModified w u) u in
        (mkWorld (replace_doc u' (users w)) (outbox w), Go u')
    end.

(** Modelled from the spec: [User.create(fields)] of [Models/User]. The
    store refuses missing required fields and invalid documents, keeps
    the email "unique, case-normalized", hashes the credential and gives
    the new identity its id. *)
Definition create (amb : Ambient)
           (n e p c r : option string) : Act User :=
  fun w =>
    match n, e, p with
    | Some n', Some e', Some _ =>
        let u := mkUser (object_id amb) n' (normalizeEmail e')
                        (match r with Some r' => r' | None => defaultRole end)
                        p c None None None in
        match validate u with
        | Some msg => (w, Stop (Rejected (ValidationError msg)))
        | None =>
            if existsb (by_email (Some (normalizeEmail e'))) (users w)
            then (w, Stop (Rejected DuplicateKey))
            else
              let u' := preSave (now amb) true u in
              (mkWorld (users w ++ [u']) (outbox w), Go u')
        end
    | _, _, _ => (w, Stop (Rejected (ValidationError "required")))
    end.

(** Modelled from the spec: [user.changedPasswordAfter(iat)] of
    [Models/User]: "true if the identity's credential-changed timestamp
    is later than issuedAtTimestamp". Both instants are read on one
    scale; the conversion of units belongs to the model. *)
Definition changedPasswordAfter (u : User) (iat : Z) : bool :=
  match passwordChangedAt u with
  | Some changed => iat <? changed
  | None => false
  end.

Definition reset_window : Z := 10 * 60 * 1000.

(** Modelled from the spec: [user.createPasswordResetToken()] of
    [Models/User]: a random plaintext whose one-way digest, and an
    expiry ten minutes ahead, are put on the document; the plaintext is
    returned and not stored. *)
Definition createPasswordResetToken (amb : Ambient) (u : User)
  : string * User :=
  (random_hex amb,
   set_passwordResetExpires (Some (now amb + reset_window))
     (set_passwordResetToken (Some (sha256hex (random_hex amb))) u)).

(** [await sendMail(options)] inside [try]: [false] stands for the
    [catch] branch. *)
Definition sendMail (m : Mail) : Act bool :=
  fun w =>
    if transport m
    then (mkWorld (users w) (outbox w ++ [m]), Go true)
    else (w, Go false).

(** *** Session issuance *)

Definition signToken (id : ID) (t : Z) : option string :=
  jwt_sign id (JWT_SECRET cfg) (JWT_EXPIRES_IN cfg) t.

(** A [Date] holds a time value of at most 8.64e15 milliseconds either
    side of the epoch; beyond that it is an invalid date. *)
Definition valid_date (ms : Z) : bool :=
  (-8640000000000000 <=? ms) && (ms <=? 8640000000000000).

(** [createSignedToken(user, statusCode, res)]: the response it writes,
    or the exception that ends it before anything is written:
    [jwt.sign] throwing, or [res.cookie] throwing on an invalid expiry
    date. The day count of the environment is taken as an integer. *)
Definition createSignedToken (u : User) (code : Z) (t : Z)
  : Exn + Response :=
  match signToken (_id u) t with
  | None => inl SignError
  | Some token =>
      let cookieOptions :=
        mkCookieOptions (t + JWT_COOKIE_EXPIRES_IN cfg * 24 * 60 * 60 * 1000)
                        true
                        (String.eqb (NODE_ENV cfg) "production") in
      if valid_date (expires cookieOptions)
      then
        let u := set_password None u in
        inr (mkResponse code (Some ("jwt", token, cookieOptions))
               (JObj [("status", JStr "success");
                      ("token", JStr token);
                      ("data", JObj [("user", JObj (toJSON u))])]))
      else inl CookieError
  end.

(** The end of a handler that calls [createSignedToken] last: the
    response is written, or the exception rejects the handler's promise. *)
Definition respond (a : Exn + Response) : Act Outcome :=
  match a with
  | inr r => ret (Responded r)
  | inl x => stop (Rejected x)
  end.

(** The outcome [respond] ends in. *)
Definition answer (a : Exn + Response) : Outcome :=
  match a with
  | inr r => Responded r
  | inl x => Rejected x
  end.

Definition signup (req : Request) (amb : Ambient) : Act Outcome :=
  newUser <- create amb (body_name req) (body_email req) (body_password req)
                    (body_confirmPassword req) (body_role req) ;;
  respond (createSignedToken newUser 201 (now amb)).

Definition login (req : Request) (amb : Ambient) : Act Outcome :=
  let (email_, password_) := (body_email req, body_password req) in
  if falsy email_ || falsy password_
  then stop (NextErr (mkAppError "Enter both password and email" 400))
  else
    found <- findOne (by_email email_) ;;
    match found with
    | None => stop (NextErr (mkAppError " Incorrect email or password" 401))
    | Some u =>
        if negb (correctPassword password_ (password u))
        then stop (NextErr (mkAppError " Incorrect email or password" 401))
        else respond (createSignedToken u 200 (now amb))
    end.

(** *** The access gate *)

(** Step 1 of [protect]: the second piece of a header that starts with
    ["Bearer"]; [None] is [undefined]. *)
Definition bearer_token (req : Request) : option string :=
  match authorization req with
  | Some h =>
      if negb (String.eqb h "") && String.prefix "Bearer" h
      then nth_error (split space h) 1
      else None
  | None => None
  end.

Definition protect (req : Request) (amb : Ambient) : Act Outcome :=
  let token := bearer_token req in
  if falsy token
  then stop (NextErr (mkAppError
               "You are not logged in. Confirm Passwords are the same" 401))
  else
    match jwt_verify (match token with Some t => t | None => "" end)
                     (JWT_SECRET cfg) (now amb) with
    | inl e => stop (Rejected (JwtException e))
    | inr decoder =>
        decodedCurrentUserId <- findById (d_id decoder) ;;
        match decodedCurrentUserId with
        | None =>
            stop (NextErr (mkAppError
                    "The user by this ID no longer exists" 401))
        | Some u =>
            if changedPasswordAfter u (d_iat decoder)
            then stop (NextErr (mkAppError
                         "The user changed his/her ID recently!" 401))
            else ret (NextOk (set_user u req))
        end
    end.

(** [restrictTo(...roles)] *)
Definition restrictTo (roles : list string) (req : Request) : Act Outcome :=
  match user req with
  | None => stop (Rejected TypeError)
  | Some u =>
      if negb (existsb (String.eqb (role u)) roles)
      then stop (NextErr (mkAppError
                   "You do not have permission for this operation " 403))
      else ret (NextOk req)
  end.

(** *** The reset handshake *)

Definition resetUrl (req : Request) (resetToken : string) : string :=
  protocol req ++ "://" ++ host req
    ++ "/api/v1/users/resetPassword/" ++ resetToken.

Definition responseMessage (req : Request) (resetToken : string) : string :=
  "Forgot your password? Patch your new authenticated password to. "
    ++ resetUrl req resetToken ++ newline
    ++ " You can also ignore the message if you did not forget".

Definition clear_reset (u : User) : User :=
  set_passwordResetExpires None (set_passwordResetToken None u).

Definition forgotPassword (req : Request) (amb : Ambient) : Act Outcome :=
  found <- findOne (by_email (body_email req)) ;;
  match found with
  | None =>
      stop (NextErr (mkAppError "There is no user of the email address!" 404))
  | Some u =>
      let (resetToken, u) := createPasswordResetToken amb u in
      u <- save false (now amb) u ;;
      sent <- sendMail (mkMail (email u)
                          " The reset token (valid for 10 minutes)"
                          (responseMessage req resetToken)) ;;
      if sent
      then ret (Responded (mkResponse 200 None
                  (JObj [("status", JStr "success");
                         ("message", JStr "Token is sent to email")])))
      else
        _ <- save false (now amb) (clear_reset u) ;;
        stop (NextErr (mkAppError
                "There was an error sending the email. Try some time later"
                500))
  end.

Definition resetPassword (req : Request) (amb : Ambient) : Act Outcome :=
  let hashedToken := sha256hex (params_token req) in
  found <- findOne (by_reset_token hashedToken (now amb)) ;;
  match found with
  | None => stop (NextErr (mkAppError "The Token is invalid or expired" 400))
  | Some u =>
      let u := set_password (body_password req) u in
      let u := set_confirmPassword (body_confirmPassword req) u in
      let u := clear_reset u in
      u <- save true (now amb) u ;;
      respond (createSignedToken u 200 (now amb))
  end.

Definition updatePassword (req : Request) (amb : Ambient) : Act Outcome :=
  match user req with
  | None => stop (Rejected TypeError)
  | Some ru =>
      found <- findById (_id ru) ;;
      match found with
      | None => stop (Rejected TypeError)
      | Some u =>
          if negb (correctPassword (body_currentPassword req) (password u))
          then stop (NextErr (mkAppError "Incorrect password" 401))
          else
            let u := set_password (body_password req) u in
            let u := set_confirmPassword (body_confirmPassword req) u in
            u <- save true (now amb) u ;;
            respond (createSignedToken u 200 (now amb))
      end
  end.

(** *** Named errors of the specification *)

Definition BadCredentials : AppError :=
  mkAppError " Incorrect email or password" 401.

Definition MissingCredentials : AppError :=
  mkAppError "Enter both password and email" 400.

Definition NotLoggedIn : AppError :=
  mkAppError "You are not logged in. Confirm Passwords are the same" 401.

Definition IdentityGone : AppError :=
  mkAppError "The user by this ID no longer exists" 401.

Definition StaleSession : AppError :=
  mkAppError "The user changed his/her ID recently!" 401.

Definition InvalidTokenError : AppError :=
  mkAppError "The Token is invalid or expired" 400.

Definition DeliveryError : AppError :=
  mkAppError "There was an error sending the email. Try some time later" 500.

(** The body [forgotPassword] answers with. *)
Definition token_sent : Response :=
  mkResponse 200 None
    (JObj [("status", JStr "success");
           ("message", JStr "Token is sent to email")]).

(** An identity whose stored digest is [h] and whose expiry lies
    strictly after [t]. *)
Definition live_token (h : string) (t : Z) (u : User) : Prop :=
  passwordResetToken u = Some h
  /\ exists e, passwordResetExpires u = Some e /\ t < e.

(** A response that carries a session for the identity [id]: the body
    is [{status, token, data: {user}}], the cookie holds the same
    token, the token decodes to [id] and verifies, whenever it does, to
    [id], which is the [_id] of the serialised user, and that user has
    no [password] field. *)
Definition session_for (id : ID) (r : Response) : Prop :=
  exists tok ujson opts,
    body r = JObj [("status", JStr "success");
                   ("token", JStr tok);
                   ("data", JObj [("user", JObj ujson)])]
    /\ cookie r = Some ("jwt", tok, opts)
    /\ jwt_decode tok = Some id
    /\ (forall t d, jwt_verify tok (JWT_SECRET cfg) t = inr d -> d_id d = id)
    /\ field "_id" ujson = Some (JStr id)
    /\ field "password" ujson = None.

(** No two identities of the collection hold the same reset digest: the
    digests are hashes of fresh random plaintexts. *)
Definition digests_unique (ds : list User) : Prop :=
  forall a b h,
    In a ds -> In b ds ->
    passwordResetToken a = Some h -> passwordResetToken b = Some h ->
    _id a = _id b.

(** A reset digest belongs to one record of the collection: the
    records that hold it are the same one. *)
Definition digest_owner_unique (ds : list User) : Prop :=
  forall a b h,
    In a ds -> In b ds ->
    passwordResetToken a = Some h -> passwordResetToken b = Some h ->
    a = b.

(** The plaintext drawn for this request has a digest that no stored
    identity holds. *)
Definition fresh_token (amb : Ambient) (w : World) : Prop :=
  forall d, In d (users w) ->
            passwordResetToken d <> Some (sha256hex (random_hex amb)).

(** The worlds the routes lead to from an empty collection, when every
    reset plaintext is drawn fresh. *)
Inductive reachable : World -> Prop :=
| reach_empty : reachable (mkWorld [] [])
| reach_signup req amb w :
    reachable w -> reachable (fst (run (signup req amb) w))
| reach_login req amb w :
    reachable w -> reachable (fst (run (login req amb) w))
| reach_protect req amb w :
    reachable w -> reachable (fst (run (protect req amb) w))
| reach_forgotPassword req amb w :
    reachable w -> fresh_token amb w ->
    reachable (fst (run (forgotPassword req amb) w))
| reach_resetPassword req amb w :
    reachable w -> reachable (fst (run (resetPassword req amb) w))
| reach_updatePassword req amb w :
    reachable w -> reachable (fst (run (updatePassword req amb) w)).

(** The document [resetPassword] hands to [save]. *)
Definition reset_doc (req : Request) (u : User) : User :=
  clear_reset
    (set_confirmPassword (body_confirmPassword req)
       (set_password (body_password req) u)).

(** The mail [forgotPassword] hands to the notifier. *)
Definition reset_mail (req : Request) (amb : Ambient) (u : User) : Mail :=
  mkMail (email u) " The reset token (valid for 10 minutes)"
         (responseMessage req (random_hex amb)).


(** *** Pieces of a header *)

(** [s.includes(c)] for a character. *)
Fixpoint has_char (c : ascii) (s : string) : bool :=
  match s with
  | EmptyString => false
  | String c' rest => Ascii.eqb c' c || has_char c rest
  end.

(** [pieces.join(sep)] for a one-character separator. *)
Fixpoint join (sep : ascii) (pieces : list string) : string :=
  match pieces with
  | [] => ""
  | [p] => p
  | p :: rest => p ++ String sep (join sep rest)
  end.

(** A header of the shape [scheme ++ " " ++ tok ++ rest], where the
    scheme and the token hold no space and the rest is empty or begins
    with a space. *)
Definition header_shape (h scheme tok rest : string) : Prop :=
  h = scheme ++ String space (tok ++ rest)
  /\ has_char space scheme = false
  /\ has_char space tok = false
  /\ (rest = "" \/ exists r, rest = String space r).


(** The error of [restrictTo]. *)
Definition Forbidden : AppError :=
  mkAppError "You do not have permission for this operation " 403.

(** The cookie [createSignedToken] sets at instant [t]. *)
Definition session_cookie (t : Z) : CookieOptions :=
  mkCookieOptions (t + JWT_COOKIE_EXPIRES_IN cfg * 24 * 60 * 60 * 1000)
                  true
                  (String.eqb (NODE_ENV cfg) "production").


(** The error of [forgotPassword] for an email nobody has. *)
Definition NoSuchUser : AppError :=
  mkAppError "There is no user of the email address!" 404.


(** The error of [updatePassword] for a wrong current password. *)
Definition WrongCurrentPassword : AppError :=
  mkAppError "Incorrect password" 401.

(** The documents of [ds] whose id is not [id] are, place by place,
    those of [ds']. *)
Definition others_kept (id : ID) (ds ds' : list User) : Prop :=
  length ds' = length ds
  /\ forall i d, nth_error ds i = Some d -> _id d <> id ->
                 nth_error ds' i = Some d.

(** The document [updatePassword] hands to [save]. *)
Definition update_doc (req : Request) (u : User) : User :=
  set_confirmPassword (body_confirmPassword req)
    (set_password (body_password req) u).


(** The document [User.create] stores for a signup with name [n], email
    [e] and password [p]. *)
Definition signup_doc (req : Request) (amb : Ambient) (n e p : string)
  : User :=
  preSave (now amb) true
    (mkUser (object_id amb) n (normalizeEmail e)
            (match body_role req with Some r => r | None => defaultRole end)
            (Some p) (body_confirmPassword req) None None None).

(** ** Properties of the controller *)

(** *** Basic facts *)

Lemma has_id_true id d : has_id id d = true <-> _id d = id.
Proof. unfold has_id. apply String.eqb_eq. Qed.

Lemma has_id_false id d : has_id id d = false <-> _id d <> id.
Proof. unfold has_id. apply String.eqb_neq. Qed.

Lemma opt_string_eqb_Some o h :
  opt_string_eqb o (Some h) = true <-> o = Some h.
Proof.
  destruct o as [x|]; simpl.
  - rewrite String.eqb_eq. split; congruence.
  - split; discriminate.
Qed.

Lemma by_reset_token_live h t d :
  by_reset_token h t d = true <-> live_token h t d.
Proof.
  unfold by_reset_token, live_token.
  rewrite andb_true_iff, opt_string_eqb_Some.
  destruct (passwordResetExpires d) as [e|].
  - rewrite Z.ltb_lt. split.
    + intros [H1 H2]. split; [exact H1|]. exists e. split; [reflexivity|lia].
    + intros [H1 [e' [He Hlt]]]. injection He as <-. split; assumption.
  - split.
    + intros [_ H]. discriminate.
    + intros [_ [e' [He _]]]. discriminate.
Qed.

Lemma find_reset_none h t ds :
  find (by_reset_token h t) ds = None
  <-> ~ exists u, In u ds /\ live_token h t u.
Proof.
  split.
  - intros Hnone [u [Hin Hlive]].
    apply (find_none _ _ Hnone) in Hin.
    apply by_reset_token_live in Hlive. congruence.
  - intros Hno. destruct (find (by_reset_token h t) ds) as [u|] eqn:E.
    + exfalso. apply Hno. exists u. apply find_some in E.
      destruct E as [Hin Hp]. split; [exact Hin|].
      apply by_reset_token_live. exact Hp.
    + reflexivity.
Qed.

Lemma falsy_false v :
  falsy v = false <-> exists s, v = Some s /\ s <> "".
Proof.
  destruct v as [s|]; simpl.
  - rewrite String.eqb_neq. split.
    + intros H. exists s. split; [reflexivity|exact H].
    + intros [s' [E H]]. injection E as <-. exact H.
  - split; [discriminate|]. intros [s [E _]]. discriminate.
Qed.

Lemma toJSON_stripped u : field "password" (toJSON (set_password None u)) = None.
Proof.
  unfold toJSON. cbn.
  destruct (confirmPassword u), (passwordChangedAt u),
           (passwordResetToken u), (passwordResetExpires u); reflexivity.
Qed.

Lemma createSignedToken_inr u code t r :
  createSignedToken u code t = inr r ->
  exists tok,
    signToken (_id u) t = Some tok
    /\ r = mkResponse code
             (Some ("jwt", tok,
                    mkCookieOptions
                      (t + JWT_COOKIE_EXPIRES_IN cfg * 24 * 60 * 60 * 1000)
                      true (String.eqb (NODE_ENV cfg) "production")))
             (JObj [("status", JStr "success");
                    ("token", JStr tok);
                    ("data", JObj [("user", JObj (toJSON (set_password None u)))])]).
Proof.
  unfold createSignedToken. destruct (signToken (_id u) t) as [tok|];
    [|discriminate].
  cbv zeta. destruct (valid_date _); [|discriminate].
  intros H. injection H as <-. exists tok. split; reflexivity.
Qed.

Lemma createSignedToken_session u code t r :
  createSignedToken u code t = inr r -> session_for (_id u) r.
Proof.
  intros H. apply createSignedToken_inr in H. destruct H as [tok [Hs ->]].
  unfold session_for. exists tok. eexists. eexists.
  unfold signToken in Hs.
  split; [reflexivity|]. split; [reflexivity|].
  split; [apply (jwt_decode_sign _ _ _ _ _ Hs)|].
  split; [|split; [reflexivity|apply toJSON_stripped]].
  intros t' d Hv. apply jwt_verify_decode in Hv.
  rewrite (jwt_decode_sign _ _ _ _ _ Hs) in Hv.
  injection Hv as ->. reflexivity.
Qed.

Lemma run_respond a w : run (respond a) w = (w, answer a).
Proof. destruct a; reflexivity. Qed.

Lemma answer_not_next_err a e : answer a <> NextErr e.
Proof. destruct a; discriminate. Qed.

Lemma answer_responded a r : answer a = Responded r -> a = inr r.
Proof. destruct a; [discriminate|]. intros H. injection H as ->. reflexivity. Qed.

Lemma createSignedToken_ok u code t tok :
  signToken (_id u) t = Some tok ->
  valid_date (t + JWT_COOKIE_EXPIRES_IN cfg * 24 * 60 * 60 * 1000) = true ->
  exists r, createSignedToken u code t = inr r /\ status r = code.
Proof.
  intros Hs Hd. unfold createSignedToken. rewrite Hs. cbv zeta.
  cbn [expires]. rewrite Hd. eexists. split; reflexivity.
Qed.

(** The handlers that end in [createSignedToken], branch by branch. *)
Lemma signup_run req amb w :
  run (signup req amb) w
  = match body_name req, body_email req, body_password req with
    | Some n, Some e, Some p =>
        match validate (mkUser (object_id amb) n (normalizeEmail e)
                          (match body_role req with
                           | Some r => r
                           | None => defaultRole
                           end)
                          (Some p) (body_confirmPassword req) None None None)
        with
        | Some msg => (w, Rejected (ValidationError msg))
        | None =>
            if existsb (by_email (Some (normalizeEmail e))) (users w)
            then (w, Rejected DuplicateKey)
            else (mkWorld (users w ++ [signup_doc req amb n e p]) (outbox w),
                  answer (createSignedToken (signup_doc req amb n e p) 201
                            (now amb)))
        end
    | _, _, _ => (w, Rejected (ValidationError "required"))
    end.
Proof.
  unfold run, signup, bind, create, signup_doc.
  destruct (body_name req) as [n|]; [|reflexivity].
  destruct (body_email req) as [e|]; [|reflexivity].
  destruct (body_password req) as [p|]; [|reflexivity].
  match goal with
  | |- context [validate ?d] => destruct (validate d)
  end; [reflexivity|].
  destruct (existsb (by_email (Some (normalizeEmail e))) (users w));
    [reflexivity|].
  match goal with
  | |- context [respond ?a] => destruct a
  end; reflexivity.
Qed.

Lemma login_run req amb w :
  run (login req amb) w
  = (w, if falsy (body_email req) || falsy (body_password req)
        then NextErr MissingCredentials
        else match find (by_email (body_email req)) (users w) with
             | None => NextErr BadCredentials
             | Some u =>
                 if negb (correctPassword (body_password req) (password u))
                 then NextErr BadCredentials
                 else answer (createSignedToken u 200 (now amb))
             end).
Proof.
  unfold run, login, bind, findOne. cbv beta iota.
  destruct (falsy (body_email req) || falsy (body_password req));
    [reflexivity|].
  destruct (find (by_email (body_email req)) (users w)) as [u|];
    [|reflexivity].
  destruct (negb (correctPassword (body_password req) (password u)));
    [reflexivity|].
  destruct (createSignedToken u 200 (now amb)); reflexivity.
Qed.

Lemma updatePassword_run req amb w :
  run (updatePassword req amb) w
  = match user req with
    | None => (w, Rejected TypeError)
    | Some ru =>
        match find (has_id (_id ru)) (users w) with
        | None => (w, Rejected TypeError)
        | Some u =>
            if negb (correctPassword (body_currentPassword req) (password u))
            then (w, NextErr WrongCurrentPassword)
            else
              match validate (update_doc req u) with
              | Some msg => (w, Rejected (ValidationError msg))
              | None =>
                  let u' := preSave (now amb)
                              (passwordModified w (update_doc req u))
                              (update_doc req u) in
                  (mkWorld (replace_doc u' (users w)) (outbox w),
                   answer (createSignedToken u' 200 (now amb)))
              end
        end
    end.
Proof.
  unfold run, updatePassword.
  destruct (user req) as [ru|]; [|reflexivity].
  unfold bind, findById, findOne.
  destruct (find (has_id (_id ru)) (users w)) as [u|]; [|reflexivity].
  destruct (negb (correctPassword (body_currentPassword req) (password u)));
    [reflexivity|].
  cbv zeta. unfold save. fold (update_doc req u).
  destruct (validate (update_doc req u)); [reflexivity|].
  match goal with
  | |- context [respond ?a] => destruct a
  end; reflexivity.
Qed.

(** *** Login *)

Lemma login_missing req amb w :
  falsy (body_email req) || falsy (body_password req) = true ->
  run (login req amb) w = (w, NextErr MissingCredentials).
Proof.
  intros H. unfold run, login. cbv beta iota. rewrite H. reflexivity.
Qed.

Lemma login_unknown req amb w :
  falsy (body_email req) = false -> falsy (body_password req) = false ->
  find (by_email (body_email req)) (users w) = None ->
  run (login req amb) w = (w, NextErr BadCredentials).
Proof.
  intros He Hp Hf. unfold run, login, bind, findOne. cbv beta iota.
  rewrite He, Hp. cbn [orb]. rewrite Hf. reflexivity.
Qed.

Lemma login_mismatch req amb w u :
  falsy (body_email req) = false -> falsy (body_password req) = false ->
  find (by_email (body_email req)) (users w) = Some u ->
  correctPassword (body_password req) (password u) = false ->
  run (login req amb) w = (w, NextErr BadCredentials).
Proof.
  intros He Hp Hf Hc. unfold run, login, bind, findOne. cbv beta iota.
  rewrite He, Hp. cbn [orb]. rewrite Hf, Hc. reflexivity.
Qed.

(** C1. A login with a non-empty email and password fails in the same
    way when no identity has the email and when an identity has it but
    the password does not verify: both runs call [next] with the same
    [AppError], status 401 and the same message, and leave the store
    alone, so their outcomes are equal. *)
Theorem login_no_user_enumeration :
  forall req1 req2 amb1 amb2 w1 w2 u,
    falsy (body_email req1) = false ->
    falsy (body_password req1) = false ->
    falsy (body_email req2) = false ->
    falsy (body_password req2) = false ->
    (forall d, In d (users w1) -> Some (email d) <> body_email req1) ->
    find (by_email (body_email req2)) (users w2) = Some u ->
    correctPassword (body_password req2) (password u) = false ->
    snd (run (login req1 amb1) w1) = snd (run (login req2 amb2) w2)
    /\ run (login req1 amb1) w1
       = (w1, NextErr (mkAppError " Incorrect email or password" 401))
    /\ run (login req2 amb2) w2
       = (w2, NextErr (mkAppError " Incorrect email or password" 401)).
Proof.
  intros req1 req2 amb1 amb2 w1 w2 u He1 Hp1 He2 Hp2 Hnone Hfound Hbad.
  assert (H1 : run (login req1 amb1) w1 = (w1, NextErr BadCredentials)).
  { apply login_unknown; try assumption.
    destruct (find (by_email (body_email req1)) (users w1)) as [d|] eqn:E;
      [|reflexivity].
    apply find_some in E. destruct E as [Hin Hm]. exfalso.
    apply (Hnone d Hin). unfold by_email in Hm.
    destruct (body_email req1) as [e|]; [|discriminate].
    apply String.eqb_eq in Hm. congruence. }
  assert (H2 : run (login req2 amb2) w2 = (w2, NextErr BadCredentials)).
  { apply login_mismatch with (u := u); assumption. }
  rewrite H1, H2. repeat split; reflexivity.
Qed.

(** C8 as the code has it. A login in which the email or the password
    is absent or empty calls [next] with an [AppError] of status 400
    and the message "Enter both password and email"; the store is not
    consulted, and the status differs from the 401 of the unknown
    identity and of the wrong password. *)
Theorem login_missing_fields_400 :
  forall req amb w,
    falsy (body_email req) = true \/ falsy (body_password req) = true ->
    run (login req amb) w
    = (w, NextErr (mkAppError "Enter both password and email" 400))
    /\ statusCode MissingCredentials <> statusCode BadCredentials.
Proof.
  intros req amb w H. split.
  - apply login_missing. apply orb_true_iff. exact H.
  - simpl. lia.
Qed.

(** *** The access gate *)

Lemma bearer_token_absent req :
  authorization req = None
  \/ (exists h, authorization req = Some h /\ String.prefix "Bearer" h = false) ->
  bearer_token req = None.
Proof.
  unfold bearer_token. intros [H | [h [H Hp]]]; rewrite H.
  - reflexivity.
  - rewrite Hp, andb_false_r. reflexivity.
Qed.

Lemma protect_no_token req amb w :
  falsy (bearer_token req) = true ->
  run (protect req amb) w = (w, NextErr NotLoggedIn).
Proof.
  intros H. unfold run, protect. cbv zeta. rewrite H. reflexivity.
Qed.

Lemma protect_unverified req amb w tok e :
  bearer_token req = Some tok -> tok <> "" ->
  jwt_verify tok (JWT_SECRET cfg) (now amb) = inl e ->
  run (protect req amb) w = (w, Rejected (JwtException e)).
Proof.
  intros Ht Hne Hv. unfold run, protect. cbv zeta. rewrite Ht.
  assert (Hf : falsy (Some tok) = false)
    by (apply falsy_false; exists tok; split; [reflexivity|exact Hne]).
  rewrite Hf, Hv. reflexivity.
Qed.

Lemma protect_verified req amb w tok d :
  bearer_token req = Some tok -> tok <> "" ->
  jwt_verify tok (JWT_SECRET cfg) (now amb) = inr d ->
  run (protect req amb) w
  = (w, match find (has_id (d_id d)) (users w) with
        | None => NextErr IdentityGone
        | Some u =>
            if changedPasswordAfter u (d_iat d)
            then NextErr StaleSession
            else NextOk (set_user u req)
        end).
Proof.
  intros Ht Hne Hv. unfold run, protect. cbv zeta. rewrite Ht.
  assert (Hf : falsy (Some tok) = false)
    by (apply falsy_false; exists tok; split; [reflexivity|exact Hne]).
  rewrite Hf, Hv. unfold bind, findById, findOne.
  destruct (find (has_id (d_id d)) (users w)) as [u|]; [|reflexivity].
  destruct (changedPasswordAfter u (d_iat d)); reflexivity.
Qed.

Lemma changedPasswordAfter_later u iat changed :
  passwordChangedAt u = Some changed -> iat < changed ->
  changedPasswordAfter u iat = true.
Proof.
  intros H Hlt. unfold changedPasswordAfter. rewrite H.
  apply Z.ltb_lt. exact Hlt.
Qed.

(** C2. A request whose bearer token verifies under the configured key
    with issuance instant [d_iat d], and whose identity is found with a
    credential-changed timestamp later than that instant, is refused:
    [protect] calls [next] with an [AppError] of status 401 and does
    not call [next()], so the handler is not reached. *)
Theorem protect_rejects_stale_session :
  forall req amb w tok d u changed,
    bearer_token req = Some tok -> tok <> "" ->
    jwt_verify tok (JWT_SECRET cfg) (now amb) = inr d ->
    find (has_id (d_id d)) (users w) = Some u ->
    passwordChangedAt u = Some changed ->
    d_iat d < changed ->
    run (protect req amb) w
    = (w, NextErr (mkAppError "The user changed his/her ID recently!" 401))
    /\ forall rq, snd (run (protect req amb) w) <> NextOk rq.
Proof.
  intros req amb w tok d u changed Ht Hne Hv Hf Hc Hlt.
  assert (E : run (protect req amb) w = (w, NextErr StaleSession)).
  { rewrite (protect_verified req amb w tok d Ht Hne Hv), Hf.
    rewrite (changedPasswordAfter_later u (d_iat d) changed Hc Hlt).
    reflexivity. }
  split; [exact E|]. intros rq. rewrite E. discriminate.
Qed.

(** C7 on the code. When the bearer token does not verify, whether
    [jwt.verify] throws [JsonWebTokenError] or [TokenExpiredError],
    the body of [protect] builds no [AppError]: its promise is rejected
    with the library's exception, which has no status code. *)
Theorem protect_verification_failure_unclassified :
  forall req amb w tok e,
    bearer_token req = Some tok -> tok <> "" ->
    jwt_verify tok (JWT_SECRET cfg) (now amb) = inl e ->
    run (protect req amb) w = (w, Rejected (JwtException e))
    /\ forall err, snd (run (protect req amb) w) <> NextErr err.
Proof.
  intros req amb w tok e Ht Hne Hv.
  pose proof (protect_unverified req amb w tok e Ht Hne Hv) as E.
  split; [exact E|]. intros err. rewrite E. discriminate.
Qed.

(** C9 as the code has it. The stages of [protect] in their order. A
    header that is absent or does not start with the characters
    "Bearer", or that yields no token, is refused with status 401
    whatever the store holds; the scheme is checked as a prefix only. With a token,
    verification comes next: if it fails the request does not proceed.
    With a verified token the identity is looked up by the decoded id:
    a missing identity is refused with status 401, a stale session is
    refused with status 401, and otherwise [next()] is called with the
    resolved identity attached as [req.user]. [next()] is called only
    when every stage has succeeded, and the store is never changed. *)
Theorem protect_stages :
  forall req amb w,
    (authorization req = None
     \/ (exists h, authorization req = Some h
                   /\ String.prefix "Bearer" h = false)
     \/ falsy (bearer_token req) = true ->
     run (protect req amb) w = (w, NextErr NotLoggedIn)
     /\ statusCode NotLoggedIn = 401)
    /\ (forall tok, bearer_token req = Some tok -> tok <> "" ->
        match jwt_verify tok (JWT_SECRET cfg) (now amb) with
        | inl e => forall rq, snd (run (protect req amb) w) <> NextOk rq
        | inr d =>
            match find (has_id (d_id d)) (users w) with
            | None =>
                run (protect req amb) w = (w, NextErr IdentityGone)
                /\ statusCode IdentityGone = 401
            | Some u =>
                if changedPasswordAfter u (d_iat d)
                then run (protect req amb) w = (w, NextErr StaleSession)
                     /\ statusCode StaleSession = 401
                else run (protect req amb) w = (w, NextOk (set_user u req))
                     /\ user (set_user u req) = Some u
            end
        end)
    /\ (forall w' rq,
        run (protect req amb) w = (w', NextOk rq) ->
        exists tok d u,
          bearer_token req = Some tok /\ tok <> ""
          /\ jwt_verify tok (JWT_SECRET cfg) (now amb) = inr d
          /\ find (has_id (d_id d)) (users w) = Some u
          /\ _id u = d_id d
          /\ changedPasswordAfter u (d_iat d) = false
          /\ rq = set_user u req /\ w' = w).
Proof.
  intros req amb w. split; [|split].
  - intros H. split; [|reflexivity]. apply protect_no_token.
    destruct H as [H | [H | H]].
    + rewrite (bearer_token_absent req (or_introl H)). reflexivity.
    + rewrite (bearer_token_absent req (or_intror H)). reflexivity.
    + exact H.
  - intros tok Ht Hne.
    destruct (jwt_verify tok (JWT_SECRET cfg) (now amb)) as [e|d] eqn:Hv.
    + intros rq. rewrite (protect_unverified req amb w tok e Ht Hne Hv).
      discriminate.
    + rewrite (protect_verified req amb w tok d Ht Hne Hv).
      destruct (find (has_id (d_id d)) (users w)) as [u|];
        [|split; reflexivity].
      destruct (changedPasswordAfter u (d_iat d)); split; reflexivity.
  - intros w' rq H.
    destruct (falsy (bearer_token req)) eqn:Hf.
    { rewrite (protect_no_token req amb w Hf) in H. discriminate. }
    apply falsy_false in Hf. destruct Hf as [tok [Ht Hne]].
    destruct (jwt_verify tok (JWT_SECRET cfg) (now amb)) as [e|d] eqn:Hv.
    { rewrite (protect_unverified req amb w tok e Ht Hne Hv) in H.
      discriminate. }
    rewrite (protect_verified req amb w tok d Ht Hne Hv) in H.
    destruct (find (has_id (d_id d)) (users w)) as [u|] eqn:Hu;
      [|discriminate].
    destruct (changedPasswordAfter u (d_iat d)) eqn:Hc; [discriminate|].
    injection H as <- <-.
    exists tok, d, u. repeat split; try assumption; try reflexivity.
    apply find_some in Hu. destruct Hu as [_ Hid].
    apply has_id_true. exact Hid.
Qed.

(** *** Saving documents *)

Lemma preSave_id t m u : _id (preSave t m u) = _id u.
Proof. destruct m; reflexivity. Qed.

Lemma preSave_email t m u : email (preSave t m u) = email u.
Proof. destruct m; reflexivity. Qed.

Lemma preSave_resetToken t m u :
  passwordResetToken (preSave t m u) = passwordResetToken u.
Proof. destruct m; reflexivity. Qed.

Lemma preSave_resetExpires t m u :
  passwordResetExpires (preSave t m u) = passwordResetExpires u.
Proof. destruct m; reflexivity. Qed.

Lemma save_unvalidated t u w :
  save false t u w
  = (mkWorld (replace_doc (preSave t (passwordModified w u) u) (users w))
             (outbox w),
     Go (preSave t (passwordModified w u) u)).
Proof. reflexivity. Qed.

(** A document of the collection after [u] was written is [u] itself
    or an untouched document with another id. *)
Lemma in_replace_doc u ds d :
  In d (replace_doc u ds) ->
  d = u \/ (In d ds /\ _id d <> _id u).
Proof.
  unfold replace_doc. rewrite in_map_iff. intros [x [E Hin]].
  destruct (has_id (_id u) x) eqn:Hx.
  - left. symmetry. exact E.
  - right. subst d. split; [exact Hin|]. apply has_id_false. exact Hx.
Qed.

(** A stored document is still there, under its id, after a write. *)
Lemma replace_doc_keeps u ds x :
  In x ds -> exists d, In d (replace_doc u ds) /\ _id d = _id x.
Proof.
  intros Hin. exists (if has_id (_id u) x then u else x). split.
  - unfold replace_doc. apply in_map_iff. exists x. split; [reflexivity|exact Hin].
  - destruct (has_id (_id u) x) eqn:Hx; [|reflexivity].
    apply has_id_true in Hx. symmetry. exact Hx.
Qed.

Lemma replace_doc_hit u ds x :
  In x ds -> _id x = _id u -> In u (replace_doc u ds).
Proof.
  intros Hin Hid. unfold replace_doc. apply in_map_iff. exists x.
  split; [|exact Hin].
  assert (H : has_id (_id u) x = true) by (apply has_id_true; exact Hid).
  rewrite H. reflexivity.
Qed.

(** *** Resetting the password *)

Lemma resetPassword_none req amb w :
  find (by_reset_token (sha256hex (params_token req)) (now amb)) (users w)
  = None ->
  run (resetPassword req amb) w = (w, NextErr InvalidTokenError).
Proof.
  intros H. unfold run, resetPassword, bind, findOne. cbv zeta.
  rewrite H. reflexivity.
Qed.

Lemma resetPassword_some req amb w u :
  find (by_reset_token (sha256hex (params_token req)) (now amb)) (users w)
  = Some u ->
  run (resetPassword req amb) w
  = match validate (reset_doc req u) with
    | Some msg => (w, Rejected (ValidationError msg))
    | None =>
        let u' := preSave (now amb) (passwordModified w (reset_doc req u))
                          (reset_doc req u) in
        (mkWorld (replace_doc u' (users w)) (outbox w),
         answer (createSignedToken u' 200 (now amb)))
    end.
Proof.
  intros H. unfold run, resetPassword, bind, findOne. cbv zeta.
  rewrite H. unfold save, ret. fold (reset_doc req u).
  destruct (validate (reset_doc req u)); [reflexivity|].
  destruct (createSignedToken
              (preSave (now amb) (passwordModified w (reset_doc req u))
                       (reset_doc req u)) 200 (now amb)); reflexivity.
Qed.

Lemma resetPassword_invalid_iff req amb w :
  snd (run (resetPassword req amb) w) = NextErr InvalidTokenError
  <-> ~ exists u, In u (users w)
                  /\ live_token (sha256hex (params_token req)) (now amb) u.
Proof.
  rewrite <- find_reset_none.
  destruct (find (by_reset_token (sha256hex (params_token req)) (now amb))
                 (users w)) as [u|] eqn:E.
  - rewrite (resetPassword_some req amb w u E).
    split; [|discriminate].
    destruct (validate (reset_doc req u)); [discriminate|].
    cbn [snd]. intros H. exfalso. apply (answer_not_next_err _ _ H).
  - rewrite (resetPassword_none req amb w E). split; reflexivity.
Qed.

(** C3. [resetPassword] calls [next] with the [AppError] "The Token is
    invalid or expired", status 400, exactly when no identity holds
    the digest of the presented token together with an expiry strictly
    after the current instant. The one query decides both conditions,
    so this is the only [AppError] the handler builds and the store is
    left as it was. In a store where a digest belongs to one record, as
    in every reachable store, a token whose expiry is [N] minutes after
    [t0] is accepted at [N - 1] minutes: its identity is found, and
    unless the store refuses the new password the identity is written
    back and the outcome is that of [createSignedToken], a response of
    status 200 with a session for the identity whenever the token can
    be signed and the cookie date is valid. At [N + 1] minutes the
    token is refused with the [AppError]. *)
Theorem resetPassword_invalid_token :
  forall req amb w,
    (snd (run (resetPassword req amb) w)
     = NextErr (mkAppError "The Token is invalid or expired" 400)
     <-> ~ exists u, In u (users w)
                     /\ passwordResetToken u
                        = Some (sha256hex (params_token req))
                     /\ exists e, passwordResetExpires u = Some e
                                  /\ now amb < e)
    /\ (forall err w',
          run (resetPassword req amb) w = (w', NextErr err) ->
          err = InvalidTokenError /\ statusCode err = 400 /\ w' = w)
    /\ (forall t0 N u rnd oid,
          digest_owner_unique (users w) ->
          In u (users w) ->
          passwordResetToken u = Some (sha256hex (params_token req)) ->
          passwordResetExpires u = Some (t0 + N * 60000) ->
          (find (by_reset_token (sha256hex (params_token req))
                                (t0 + (N - 1) * 60000)) (users w)
           = Some u
           /\ (forall msg,
                 validate (reset_doc req u) = Some msg ->
                 run (resetPassword req
                        (mkAmbient (t0 + (N - 1) * 60000) rnd oid)) w
                 = (w, Rejected (ValidationError msg)))
           /\ (validate (reset_doc req u) = None ->
               forall tok,
                 signToken (_id u) (t0 + (N - 1) * 60000) = Some tok ->
                 valid_date (t0 + (N - 1) * 60000
                             + JWT_COOKIE_EXPIRES_IN cfg * 24 * 60 * 60 * 1000)
                 = true ->
                 exists w' r,
                   run (resetPassword req
                          (mkAmbient (t0 + (N - 1) * 60000) rnd oid)) w
                   = (w', Responded r)
                   /\ status r = 200
                   /\ session_for (_id u) r
                   /\ forall d, In d (users w') -> _id d = _id u ->
                                passwordResetToken d = None
                                /\ passwordResetExpires d = None)
           /\ snd (run (resetPassword req
                          (mkAmbient (t0 + (N - 1) * 60000) rnd oid)) w)
              <> NextErr InvalidTokenError)
          /\ run (resetPassword req
                    (mkAmbient (t0 + (N + 1) * 60000) rnd oid)) w
             = (w, NextErr InvalidTokenError)).
Proof.
  intros req amb w. split; [|split].
  - apply resetPassword_invalid_iff.
  - intros err w' H.
    destruct (find (by_reset_token (sha256hex (params_token req)) (now amb))
                   (users w)) as [u|] eqn:E.
    + rewrite (resetPassword_some req amb w u E) in H.
      destruct (validate (reset_doc req u)); [discriminate|].
      injection H as _ H. exfalso. apply (answer_not_next_err _ _ H).
    + rewrite (resetPassword_none req amb w E) in H.
      injection H as <- <-. repeat split; reflexivity.
  - intros t0 N u rnd oid Hown Hin Htok Hexp.
    set (early := mkAmbient (t0 + (N - 1) * 60000) rnd oid).
    set (late := mkAmbient (t0 + (N + 1) * 60000) rnd oid).
    assert (Hlive : live_token (sha256hex (params_token req)) (now early) u).
    { split; [exact Htok|]. exists (t0 + N * 60000).
      split; [exact Hexp|]. simpl. lia. }
    assert (Hfind : find (by_reset_token (sha256hex (params_token req))
                            (now early)) (users w) = Some u).
    { destruct (find (by_reset_token (sha256hex (params_token req))
                        (now early)) (users w)) as [d|] eqn:E.
      - apply find_some in E. destruct E as [Hd Hm].
        apply by_reset_token_live in Hm.
        rewrite (Hown d u _ Hd Hin (proj1 Hm) Htok). reflexivity.
      - exfalso. apply find_reset_none in E. apply E.
        exists u. split; assumption. }
    pose proof (resetPassword_some req early w u Hfind) as Hrun.
    split; [split; [exact Hfind|split; [|split]]|].
    + intros msg Hval. rewrite Hrun, Hval. reflexivity.
    + intros Hval tok Hsign Hdate. rewrite Hrun, Hval. cbv zeta.
      set (u' := preSave (now early) (passwordModified w (reset_doc req u))
                         (reset_doc req u)).
      assert (Hid : _id u' = _id u)
        by (unfold u'; rewrite preSave_id; reflexivity).
      destruct (createSignedToken_ok u' 200 (now early) tok) as [r [Hr Hst]].
      { rewrite Hid. exact Hsign. }
      { exact Hdate. }
      exists (mkWorld (replace_doc u' (users w)) (outbox w)), r.
      rewrite Hr. split; [reflexivity|]. split; [exact Hst|]. split.
      * rewrite <- Hid. apply (createSignedToken_session u' 200 (now early)).
        exact Hr.
      * intros d Hd Hdid. cbn [users] in Hd.
        apply in_replace_doc in Hd. destruct Hd as [-> | [_ Hne]].
        -- unfold u'. rewrite preSave_resetToken, preSave_resetExpires.
           split; reflexivity.
        -- congruence.
    + rewrite Hrun. destruct (validate (reset_doc req u)); [discriminate|].
      cbn [snd]. apply answer_not_next_err.
    + apply resetPassword_none. apply find_reset_none.
      intros [v [Hv [Hvt [e [He Hlt]]]]].
      rewrite (Hown v u _ Hv Hin Hvt Htok), Hexp in He.
      injection He as <-. simpl in Hlt. lia.
Qed.

(** C4. A reset token is used up by a successful reset. In a store
    whose reset digests are unique, as they are in every reachable
    store, when [resetPassword] answers with a session the identity it
    found is written back with neither digest nor expiry, and a second
    [resetPassword] with the same plaintext, at any instant, calls
    [next] with the [AppError] "The Token is invalid or expired",
    status 400. *)
Theorem resetPassword_single_use :
  forall req amb w w1 r req2 amb2,
    digests_unique (users w) ->
    run (resetPassword req amb) w = (w1, Responded r) ->
    params_token req2 = params_token req ->
    (exists u,
        In u (users w)
        /\ live_token (sha256hex (params_token req)) (now amb) u
        /\ (exists d, In d (users w1) /\ _id d = _id u)
        /\ forall d, In d (users w1) -> _id d = _id u ->
                     passwordResetToken d = None
                     /\ passwordResetExpires d = None)
    /\ run (resetPassword req2 amb2) w1
       = (w1, NextErr (mkAppError "The Token is invalid or expired" 400)).
Proof.
  intros req amb w w1 r req2 amb2 Huniq Hrun Htok.
  destruct (find (by_reset_token (sha256hex (params_token req)) (now amb))
                 (users w)) as [u|] eqn:E.
  2:{ rewrite (resetPassword_none req amb w E) in Hrun. discriminate. }
  rewrite (resetPassword_some req amb w u E) in Hrun.
  destruct (validate (reset_doc req u)); [discriminate|].
  cbv zeta in Hrun.
  set (u' := preSave (now amb) (passwordModified w (reset_doc req u))
                     (reset_doc req u)) in Hrun.
  injection Hrun as Hw1 _.
  assert (Hid : _id u' = _id u)
    by (unfold u'; rewrite preSave_id; reflexivity).
  assert (Ht' : passwordResetToken u' = None)
    by (unfold u'; rewrite preSave_resetToken; reflexivity).
  assert (He' : passwordResetExpires u' = None)
    by (unfold u'; rewrite preSave_resetExpires; reflexivity).
  apply find_some in E. destruct E as [Hin Hlive].
  apply by_reset_token_live in Hlive.
  assert (Hcleared : forall d, In d (users w1) -> _id d = _id u ->
                               passwordResetToken d = None
                               /\ passwordResetExpires d = None).
  { intros d Hd Hdid. rewrite <- Hw1 in Hd. simpl in Hd.
    apply in_replace_doc in Hd. destruct Hd as [-> | [_ Hne]].
    - split; assumption.
    - congruence. }
  split.
  - exists u. split; [exact Hin|]. split; [exact Hlive|].
    split; [|exact Hcleared].
    rewrite <- Hw1. simpl. apply replace_doc_keeps. exact Hin.
  - apply resetPassword_none. rewrite Htok. apply find_reset_none.
    intros [d [Hd [Hdt _]]].
    assert (Hd' := Hd). rewrite <- Hw1 in Hd'. simpl in Hd'.
    apply in_replace_doc in Hd'. destruct Hd' as [-> | [Hd0 Hne]].
    + congruence.
    + apply Hne. rewrite Hid.
      apply (Huniq d u _ Hd0 Hin Hdt). apply Hlive.
Qed.

(** *** Reset digests stay unique *)

(** Writing a document keeps the digests unique when the document keeps
    the digest of a stored document with its id, has none, or has one
    that nobody holds. *)
Lemma digests_unique_replace u' ds :
  digests_unique ds ->
  (exists u, In u ds /\ _id u = _id u'
             /\ passwordResetToken u = passwordResetToken u')
  \/ passwordResetToken u' = None
  \/ (forall d, In d ds -> passwordResetToken d <> passwordResetToken u') ->
  digests_unique (replace_doc u' ds).
Proof.
  intros Hinv Hnew a b h Ha Hb Hta Htb.
  apply in_replace_doc in Ha. apply in_replace_doc in Hb.
  assert (Hold : forall x, In x ds -> _id x <> _id u' ->
                           passwordResetToken x = Some h ->
                           passwordResetToken u' = Some h -> False).
  { intros x Hx Hne Htx Htu. destruct Hnew as [[u [Hu [Hid Ht]]] | [Hn | Hf]].
    - apply Hne. rewrite <- Hid. apply (Hinv x u h Hx Hu Htx). congruence.
    - congruence.
    - apply (Hf x Hx). congruence. }
  destruct Ha as [-> | [Ha Hna]], Hb as [-> | [Hb Hnb]].
  - reflexivity.
  - exfalso. apply (Hold b Hb Hnb Htb Hta).
  - exfalso. apply (Hold a Ha Hna Hta Htb).
  - apply (Hinv a b h Ha Hb Hta Htb).
Qed.

Lemma digests_unique_add u' ds :
  digests_unique ds -> passwordResetToken u' = None ->
  digests_unique (ds ++ [u']).
Proof.
  intros Hinv Hn a b h Ha Hb Hta Htb.
  apply in_app_or in Ha. apply in_app_or in Hb.
  destruct Ha as [Ha | [<- | []]]; [|congruence].
  destruct Hb as [Hb | [<- | []]]; [|congruence].
  apply (Hinv a b h Ha Hb Hta Htb).
Qed.

Lemma signup_keeps_digests req amb w :
  digests_unique (users w) ->
  digests_unique (users (fst (run (signup req amb) w))).
Proof.
  intros Hinv. rewrite signup_run.
  destruct (body_name req) as [n|]; [|exact Hinv].
  destruct (body_email req) as [e|]; [|exact Hinv].
  destruct (body_password req) as [p|]; [|exact Hinv].
  match goal with
  | |- context [validate ?d] => destruct (validate d)
  end; [exact Hinv|].
  destruct (existsb (by_email (Some (normalizeEmail e))) (users w));
    [exact Hinv|].
  cbn [fst users]. apply digests_unique_add; [exact Hinv|reflexivity].
Qed.

Lemma login_keeps_world req amb w : fst (run (login req amb) w) = w.
Proof. rewrite login_run. reflexivity. Qed.

Lemma protect_keeps_world req amb w : fst (run (protect req amb) w) = w.
Proof.
  unfold run, protect, bind, findById, findOne, stop, ret. cbv zeta.
  destruct (falsy (bearer_token req)); [reflexivity|].
  match goal with
  | |- context [jwt_verify ?a ?b ?c] => destruct (jwt_verify a b c) as [e|d]
  end; [reflexivity|].
  destruct (find (has_id (d_id d)) (users w)) as [u|]; [|reflexivity].
  destruct (changedPasswordAfter u (d_iat d)); reflexivity.
Qed.

Lemma resetPassword_keeps_digests req amb w :
  digests_unique (users w) ->
  digests_unique (users (fst (run (resetPassword req amb) w))).
Proof.
  intros Hinv.
  destruct (find (by_reset_token (sha256hex (params_token req)) (now amb))
                 (users w)) as [u|] eqn:E.
  - rewrite (resetPassword_some req amb w u E).
    destruct (validate (reset_doc req u)); [exact Hinv|].
    cbn [fst users]. apply digests_unique_replace; [exact Hinv|].
    right. left. rewrite preSave_resetToken. reflexivity.
  - rewrite (resetPassword_none req amb w E). exact Hinv.
Qed.

Lemma updatePassword_keeps_digests req amb w :
  digests_unique (users w) ->
  digests_unique (users (fst (run (updatePassword req amb) w))).
Proof.
  intros Hinv. rewrite updatePassword_run.
  destruct (user req) as [ru|]; [|exact Hinv].
  destruct (find (has_id (_id ru)) (users w)) as [u|] eqn:E; [|exact Hinv].
  destruct (negb (correctPassword (body_currentPassword req) (password u)));
    [exact Hinv|].
  destruct (validate (update_doc req u)); [exact Hinv|].
  cbn [fst users]. apply digests_unique_replace; [exact Hinv|].
  left. exists u. apply find_some in E. destruct E as [Hin _].
  split; [exact Hin|].
  rewrite preSave_id, preSave_resetToken. split; reflexivity.
Qed.

(** *** Asking for a reset *)

Lemma forgotPassword_none req amb w :
  find (by_email (body_email req)) (users w) = None ->
  run (forgotPassword req amb) w
  = (w, NextErr (mkAppError "There is no user of the email address!" 404)).
Proof.
  intros H. unfold run, forgotPassword, bind, findOne. rewrite H.
  reflexivity.
Qed.

Lemma forgotPassword_some req amb w u :
  find (by_email (body_email req)) (users w) = Some u ->
  run (forgotPassword req amb) w
  = let u1 := snd (createPasswordResetToken amb u) in
    let u2 := preSave (now amb) (passwordModified w u1) u1 in
    let w1 := mkWorld (replace_doc u2 (users w)) (outbox w) in
    if transport (reset_mail req amb u2)
    then (mkWorld (users w1) (outbox w1 ++ [reset_mail req amb u2]),
          Responded token_sent)
    else
      let u3 := preSave (now amb) (passwordModified w1 (clear_reset u2))
                        (clear_reset u2) in
      (mkWorld (replace_doc u3 (users w1)) (outbox w1),
       NextErr DeliveryError).
Proof.
  intros H. unfold run, forgotPassword, bind, findOne. rewrite H.
  unfold createPasswordResetToken. cbv zeta. cbn [snd].
  rewrite save_unvalidated. unfold sendMail, reset_mail.
  match goal with
  | |- context [transport ?m] => destruct (transport m)
  end; reflexivity.
Qed.

(** C5. When [forgotPassword] has found the identity and stored a
    digest and an expiry on it, and the notifier refuses the mail, the
    handler writes the identity back with neither digest nor expiry
    and then calls [next] with an [AppError] of status 500: the stored
    record of that identity holds no digest afterwards, and no mail
    has left. *)
Theorem forgotPassword_delivery_failure :
  forall req amb w u,
    find (by_email (body_email req)) (users w) = Some u ->
    transport (mkMail (email u) " The reset token (valid for 10 minutes)"
                      (responseMessage req (random_hex amb))) = false ->
    exists w',
      run (forgotPassword req amb) w
      = (w', NextErr (mkAppError
               "There was an error sending the email. Try some time later"
               500))
      /\ outbox w' = outbox w
      /\ (exists d, In d (users w') /\ _id d = _id u)
      /\ forall d, In d (users w') -> _id d = _id u ->
                   passwordResetToken d = None
                   /\ passwordResetExpires d = None.
Proof.
  intros req amb w u Hfind Hfail.
  rewrite (forgotPassword_some req amb w u Hfind). cbv zeta.
  set (u1 := snd (createPasswordResetToken amb u)).
  set (u2 := preSave (now amb) (passwordModified w u1) u1).
  set (w1 := mkWorld (replace_doc u2 (users w)) (outbox w)).
  set (u3 := preSave (now amb) (passwordModified w1 (clear_reset u2))
                     (clear_reset u2)).
  assert (Hid2 : _id u2 = _id u)
    by (unfold u2; rewrite preSave_id; reflexivity).
  assert (Hid3 : _id u3 = _id u)
    by (unfold u3; rewrite preSave_id; exact Hid2).
  assert (Hmail : reset_mail req amb u2
                  = mkMail (email u) " The reset token (valid for 10 minutes)"
                           (responseMessage req (random_hex amb))).
  { unfold reset_mail, u2. rewrite preSave_email. reflexivity. }
  rewrite Hmail, Hfail.
  eexists. split; [reflexivity|]. split; [reflexivity|].
  apply find_some in Hfind. destruct Hfind as [Hin _]. cbn [users].
  split.
  - exists u3. split; [|exact Hid3].
    destruct (replace_doc_keeps u2 (users w) u Hin) as [d [Hd Hdid]].
    apply (replace_doc_hit u3 _ d Hd). congruence.
  - intros d Hd Hdid.
    apply in_replace_doc in Hd. destruct Hd as [-> | [_ Hne]].
    + unfold u3. rewrite preSave_resetToken, preSave_resetExpires.
      split; reflexivity.
    + congruence.
Qed.

Lemma forgotPassword_responds req amb w w' r :
  run (forgotPassword req amb) w = (w', Responded r) ->
  r = token_sent
  /\ exists m, outbox w' = (outbox w ++ [m])%list
               /\ mail_responseMessage m
                  = responseMessage req (random_hex amb).
Proof.
  intros H.
  destruct (find (by_email (body_email req)) (users w)) as [u|] eqn:E.
  - rewrite (forgotPassword_some req amb w u E) in H. cbv zeta in H.
    match type of H with
    | context [transport ?m] => destruct (transport m)
    end; [|discriminate].
    injection H as <- <-. split; [reflexivity|].
    eexists. split; reflexivity.
  - rewrite (forgotPassword_none req amb w E) in H. discriminate.
Qed.

(** C10. Whatever the request, the store, the clock and the random
    plaintext, a [forgotPassword] that answers does so with status 200
    and the body [{status: "success", message: "Token is sent to
    email"}] and no cookie; two answering runs with different tokens
    give the same response. The plaintext is in the mail handed to the
    notifier, the one mail each run adds to the outbox. *)
Theorem forgotPassword_response_token_independent :
  forall req1 req2 amb1 amb2 w1 w2 w1' w2' r1 r2,
    run (forgotPassword req1 amb1) w1 = (w1', Responded r1) ->
    run (forgotPassword req2 amb2) w2 = (w2', Responded r2) ->
    r1 = r2
    /\ r1 = mkResponse 200 None
              (JObj [("status", JStr "success");
                     ("message", JStr "Token is sent to email")])
    /\ exists m, outbox w1' = (outbox w1 ++ [m])%list
                 /\ mail_responseMessage m
                    = responseMessage req1 (random_hex amb1).
Proof.
  intros req1 req2 amb1 amb2 w1 w2 w1' w2' r1 r2 H1 H2.
  apply forgotPassword_responds in H1. apply forgotPassword_responds in H2.
  destruct H1 as [-> Hm]. destruct H2 as [-> _].
  split; [reflexivity|]. split; [reflexivity|exact Hm].
Qed.

Lemma forgotPassword_keeps_digests req amb w :
  digests_unique (users w) -> fresh_token amb w ->
  digests_unique (users (fst (run (forgotPassword req amb) w))).
Proof.
  intros Hinv Hfresh.
  destruct (find (by_email (body_email req)) (users w)) as [u|] eqn:E.
  - rewrite (forgotPassword_some req amb w u E). cbv zeta.
    set (u1 := snd (createPasswordResetToken amb u)).
    set (u2 := preSave (now amb) (passwordModified w u1) u1).
    assert (H2 : digests_unique (replace_doc u2 (users w))).
    { apply digests_unique_replace; [exact Hinv|].
      right. right. intros d Hd. unfold u2.
      rewrite preSave_resetToken. apply (Hfresh d Hd). }
    destruct (transport (reset_mail req amb u2)); cbn [fst users].
    + exact H2.
    + apply digests_unique_replace; [exact H2|].
      right. left. rewrite preSave_resetToken. reflexivity.
  - rewrite (forgotPassword_none req amb w E). exact Hinv.
Qed.

(** Every reachable store has unique reset digests. *)
Lemma reachable_digests_unique w :
  reachable w -> digests_unique (users w).
Proof.
  induction 1 as [ | req amb w _ IH | req amb w _ IH | req amb w _ IH
                   | req amb w _ IH Hfresh | req amb w _ IH
                   | req amb w _ IH ].
  - intros a b h [].
  - apply signup_keeps_digests. exact IH.
  - rewrite login_keeps_world. exact IH.
  - rewrite protect_keeps_world. exact IH.
  - apply forgotPassword_keeps_digests; assumption.
  - apply resetPassword_keeps_digests. exact IH.
  - apply updatePassword_keeps_digests. exact IH.
Qed.

(** *** A digest has one owner *)

Lemma digest_owner_unique_replace u' ds :
  digest_owner_unique ds ->
  (exists u, In u ds /\ _id u = _id u'
             /\ passwordResetToken u = passwordResetToken u')
  \/ passwordResetToken u' = None
  \/ (forall d, In d ds -> passwordResetToken d <> passwordResetToken u') ->
  digest_owner_unique (replace_doc u' ds).
Proof.
  intros Hinv Hnew a b h Ha Hb Hta Htb.
  apply in_replace_doc in Ha. apply in_replace_doc in Hb.
  assert (Hold : forall x, In x ds -> _id x <> _id u' ->
                           passwordResetToken x = Some h ->
                           passwordResetToken u' = Some h -> False).
  { intros x Hx Hne Htx Htu. destruct Hnew as [[u [Hu [Hid Ht]]] | [Hn | Hf]].
    - apply Hne. rewrite <- Hid.
      rewrite (Hinv x u h Hx Hu Htx); [reflexivity|congruence].
    - congruence.
    - apply (Hf x Hx). congruence. }
  destruct Ha as [-> | [Ha Hna]], Hb as [-> | [Hb Hnb]].
  - reflexivity.
  - exfalso. apply (Hold b Hb Hnb Htb Hta).
  - exfalso. apply (Hold a Ha Hna Hta Htb).
  - apply (Hinv a b h Ha Hb Hta Htb).
Qed.

Lemma digest_owner_unique_add u' ds :
  digest_owner_unique ds -> passwordResetToken u' = None ->
  digest_owner_unique (ds ++ [u']).
Proof.
  intros Hinv Hn a b h Ha Hb Hta Htb.
  apply in_app_or in Ha. apply in_app_or in Hb.
  destruct Ha as [Ha | [<- | []]]; [|congruence].
  destruct Hb as [Hb | [<- | []]]; [|congruence].
  apply (Hinv a b h Ha Hb Hta Htb).
Qed.

(** Every reachable store gives each reset digest one owner. *)
Lemma reachable_digest_owner_unique w :
  reachable w -> digest_owner_unique (users w).
Proof.
  induction 1 as [ | req amb w _ IH | req amb w _ IH | req amb w _ IH
                   | req amb w _ IH Hfresh | req amb w _ IH
                   | req amb w _ IH ].
  - intros a b h [].
  - rewrite signup_run.
    destruct (body_name req) as [n|]; [|exact IH].
    destruct (body_email req) as [e|]; [|exact IH].
    destruct (body_password req) as [p|]; [|exact IH].
    match goal with
    | |- context [validate ?d] => destruct (validate d)
    end; [exact IH|].
    destruct (existsb (by_email (Some (normalizeEmail e))) (users w));
      [exact IH|].
    cbn [fst users]. apply digest_owner_unique_add; [exact IH|reflexivity].
  - rewrite login_keeps_world. exact IH.
  - rewrite protect_keeps_world. exact IH.
  - destruct (find (by_email (body_email req)) (users w)) as [u|] eqn:E.
    + rewrite (forgotPassword_some req amb w u E). cbv zeta.
      set (u1 := snd (createPasswordResetToken amb u)).
      set (u2 := preSave (now amb) (passwordModified w u1) u1).
      assert (H2 : digest_owner_unique (replace_doc u2 (users w))).
      { apply digest_owner_unique_replace; [exact IH|].
        right. right. intros d Hd. unfold u2.
        rewrite preSave_resetToken. apply (Hfresh d Hd). }
      destruct (transport (reset_mail req amb u2)); cbn [fst users].
      * exact H2.
      * apply digest_owner_unique_replace; [exact H2|].
        right. left. rewrite preSave_resetToken. reflexivity.
    + rewrite (forgotPassword_none req amb w E). exact IH.
  - destruct (find (by_reset_token (sha256hex (params_token req)) (now amb))
                   (users w)) as [u|] eqn:E.
    + rewrite (resetPassword_some req amb w u E).
      destruct (validate (reset_doc req u)); [exact IH|].
      cbn [fst users]. apply digest_owner_unique_replace; [exact IH|].
      right. left. rewrite preSave_resetToken. reflexivity.
    + rewrite (resetPassword_none req amb w E). exact IH.
  - rewrite updatePassword_run.
    destruct (user req) as [ru|]; [|exact IH].
    destruct (find (has_id (_id ru)) (users w)) as [u|] eqn:E; [|exact IH].
    destruct (negb (correctPassword (body_currentPassword req) (password u)));
      [exact IH|].
    destruct (validate (update_doc req u)); [exact IH|].
    cbn [fst users]. apply digest_owner_unique_replace; [exact IH|].
    left. exists u. apply find_some in E. destruct E as [Hin _].
    split; [exact Hin|].
    rewrite preSave_id, preSave_resetToken. split; reflexivity.
Qed.

(** *** Issued sessions *)

Lemma createSignedToken_status u code t r :
  createSignedToken u code t = inr r -> status r = code.
Proof.
  intros H. apply createSignedToken_inr in H. destruct H as [tok [_ ->]].
  reflexivity.
Qed.

Lemma signup_responds req amb w w' r :
  run (signup req amb) w = (w', Responded r) ->
  exists u, users w' = (users w ++ [u])%list
            /\ createSignedToken u 201 (now amb) = inr r.
Proof.
  rewrite signup_run.
  destruct (body_name req) as [n|]; [|discriminate].
  destruct (body_email req) as [e|]; [|discriminate].
  destruct (body_password req) as [p|]; [|discriminate].
  match goal with
  | |- context [validate ?d] => destruct (validate d)
  end; [discriminate|].
  destruct (existsb (by_email (Some (normalizeEmail e))) (users w));
    [discriminate|].
  intros H. injection H as <- H. apply answer_responded in H.
  eexists. split; [reflexivity|exact H].
Qed.

Lemma login_responds req amb w w' r :
  run (login req amb) w = (w', Responded r) ->
  exists u, In u (users w') /\ createSignedToken u 200 (now amb) = inr r.
Proof.
  rewrite login_run.
  destruct (falsy (body_email req) || falsy (body_password req));
    [discriminate|].
  destruct (find (by_email (body_email req)) (users w)) as [u|] eqn:E;
    [|discriminate].
  destruct (negb (correctPassword (body_password req) (password u)));
    [discriminate|].
  intros H. injection H as <- H. apply answer_responded in H.
  exists u. split; [|exact H]. apply find_some in E. apply E.
Qed.

Lemma resetPassword_responds req amb w w' r :
  run (resetPassword req amb) w = (w', Responded r) ->
  exists u, In u (users w') /\ createSignedToken u 200 (now amb) = inr r.
Proof.
  intros H.
  destruct (find (by_reset_token (sha256hex (params_token req)) (now amb))
                 (users w)) as [u|] eqn:E.
  - rewrite (resetPassword_some req amb w u E) in H.
    destruct (validate (reset_doc req u)); [discriminate|].
    cbv zeta in H. injection H as <- H. apply answer_responded in H.
    eexists. split; [|exact H].
    cbn [users]. apply find_some in E. destruct E as [Hin _].
    apply (replace_doc_hit _ _ u Hin). rewrite preSave_id. reflexivity.
  - rewrite (resetPassword_none req amb w E) in H. discriminate.
Qed.

Lemma updatePassword_responds req amb w w' r :
  run (updatePassword req amb) w = (w', Responded r) ->
  exists u, In u (users w') /\ createSignedToken u 200 (now amb) = inr r.
Proof.
  rewrite updatePassword_run.
  destruct (user req) as [ru|]; [|discriminate].
  destruct (find (has_id (_id ru)) (users w)) as [u|] eqn:E;
    [|discriminate].
  destruct (negb (correctPassword (body_currentPassword req) (password u)));
    [discriminate|].
  destruct (validate (update_doc req u)); [discriminate|].
  cbv zeta. intros H. injection H as <- H. apply answer_responded in H.
  eexists. split; [|exact H].
  cbn [users]. apply find_some in E. destruct E as [Hin _].
  apply (replace_doc_hit _ _ u Hin). rewrite preSave_id. reflexivity.
Qed.

(** C6. Every operation that answers with a session ([signup],
    [login], [resetPassword], [updatePassword]) answers for an
    identity of the store: the token in the body and in the cookie
    decodes to the [_id] of the user object in the body, and that
    object has no [password] field. After [signup] the identity is the
    one the request has just added to the store. *)
Theorem session_binds_identity_and_hides_hash :
  forall req amb w w' r,
    run (signup req amb) w = (w', Responded r)
    \/ run (login req amb) w = (w', Responded r)
    \/ run (resetPassword req amb) w = (w', Responded r)
    \/ run (updatePassword req amb) w = (w', Responded r) ->
    (exists u, In u (users w') /\ session_for (_id u) r)
    /\ (run (signup req amb) w = (w', Responded r) ->
        exists u, users w' = (users w ++ [u])%list
                  /\ status r = 201 /\ session_for (_id u) r).
Proof.
  intros req amb w w' r H. split.
  - destruct H as [H | [H | [H | H]]].
    + apply signup_responds in H. destruct H as [u [Hw Hr]].
      exists u. split; [|apply (createSignedToken_session _ _ _ _ Hr)].
      rewrite Hw. apply in_or_app. right. left. reflexivity.
    + apply login_responds in H. destruct H as [u [Hin Hr]].
      exists u. split; [exact Hin|apply (createSignedToken_session _ _ _ _ Hr)].
    + apply resetPassword_responds in H. destruct H as [u [Hin Hr]].
      exists u. split; [exact Hin|apply (createSignedToken_session _ _ _ _ Hr)].
    + apply updatePassword_responds in H. destruct H as [u [Hin Hr]].
      exists u. split; [exact Hin|apply (createSignedToken_session _ _ _ _ Hr)].
  - intros Hs. apply signup_responds in Hs. destruct Hs as [u [Hw Hr]].
    exists u. split; [exact Hw|].
    split; [apply (createSignedToken_status _ _ _ _ Hr)|].
    apply (createSignedToken_session _ _ _ _ Hr).
Qed.

(** *** Splitting a header *)

Lemma split_not_nil sep s : split sep s <> [].
Proof.
  destruct s as [|c rest]; simpl; [discriminate|].
  destruct (Ascii.eqb c sep); [discriminate|].
  destruct (split sep rest); discriminate.
Qed.

Lemma split_no_sep sep s : has_char sep s = false -> split sep s = [s].
Proof.
  induction s as [|c rest IH]; simpl; [reflexivity|].
  intros H. apply orb_false_iff in H. destruct H as [Hc Hr].
  rewrite Hc, (IH Hr). reflexivity.
Qed.

Lemma split_app_sep sep a b :
  has_char sep a = false ->
  split sep (a ++ String sep b) = a :: split sep b.
Proof.
  induction a as [|c a IH]; simpl.
  - intros _. rewrite Ascii.eqb_refl. reflexivity.
  - intros H. apply orb_false_iff in H. destruct H as [Hc Ha].
    rewrite Hc, (IH Ha). reflexivity.
Qed.

(** Joining the pieces gives the string back. *)
Lemma join_split sep s : join sep (split sep s) = s.
Proof.
  induction s as [|c rest IH]; simpl; [reflexivity|].
  destruct (Ascii.eqb c sep) eqn:E.
  - apply Ascii.eqb_eq in E. subst c.
    pose proof (split_not_nil sep rest) as Hn.
    destruct (split sep rest) as [|p ps]; [congruence|].
    change (join sep ("" :: p :: ps)) with (String sep (join sep (p :: ps))).
    rewrite IH. reflexivity.
  - pose proof (split_not_nil sep rest) as Hn.
    destruct (split sep rest) as [|p ps]; [congruence|].
    destruct ps as [|q qs]; simpl in *; rewrite <- IH; reflexivity.
Qed.

(** No piece holds the separator. *)
Lemma split_pieces sep s p :
  In p (split sep s) -> has_char sep p = false.
Proof.
  revert p. induction s as [|c rest IH]; simpl.
  - intros p [<- | []]. reflexivity.
  - destruct (Ascii.eqb c sep) eqn:E.
    + intros p [<- | Hin]; [reflexivity|apply IH; exact Hin].
    + pose proof (split_not_nil sep rest) as Hn.
      destruct (split sep rest) as [|q qs]; [congruence|].
      intros p [<- | Hin].
      * simpl. rewrite E. apply IH. left. reflexivity.
      * apply IH. right. exact Hin.
Qed.

Lemma prefix_app p s x :
  String.prefix p s = true -> String.prefix p (s ++ x) = true.
Proof.
  revert s. induction p as [|c p IH]; intros s.
  - intros _. destruct (s ++ x); reflexivity.
  - destruct s as [|c' s]; simpl; [discriminate|].
    destruct (ascii_dec c c'); [apply IH|discriminate].
Qed.

Lemma prefix_before_sep sep p s x :
  has_char sep p = false ->
  String.prefix p (s ++ String sep x) = true -> String.prefix p s = true.
Proof.
  revert s. induction p as [|c p IH]; intros s Hp.
  { intros _. destruct s; reflexivity. }
  simpl in Hp. apply orb_false_iff in Hp. destruct Hp as [Hc Hp].
  destruct s as [|c' s]; simpl.
  - destruct (ascii_dec c sep) as [->|Hne]; [|discriminate].
    rewrite Ascii.eqb_refl in Hc. discriminate.
  - destruct (ascii_dec c c'); [apply IH; exact Hp|discriminate].
Qed.

Lemma append_empty_r s : s ++ "" = s.
Proof.
  induction s as [|c s IH]; simpl; [reflexivity|]. rewrite IH. reflexivity.
Qed.

Lemma header_shape_split h scheme tok rest :
  header_shape h scheme tok rest ->
  exists more, split space h = scheme :: tok :: more.
Proof.
  intros [-> [Hs [Ht Hr]]]. rewrite (split_app_sep _ _ _ Hs).
  destruct Hr as [-> | [r ->]].
  - rewrite append_empty_r, (split_no_sep _ _ Ht). exists []. reflexivity.
  - rewrite (split_app_sep _ _ _ Ht). eexists. reflexivity.
Qed.


Lemma bearer_token_of_shape req h scheme tok rest :
  authorization req = Some h ->
  String.prefix "Bearer" scheme = true ->
  header_shape h scheme tok rest ->
  bearer_token req = Some tok.
Proof.
  intros Ha Hp Hs. unfold bearer_token. rewrite Ha.
  destruct (header_shape_split h scheme tok rest Hs) as [more Hsplit].
  destruct Hs as [-> _].
  rewrite (prefix_app _ _ _ Hp), Hsplit.
  destruct scheme; reflexivity.
Qed.

Lemma shape_of_bearer_token req tok :
  bearer_token req = Some tok ->
  exists h scheme rest,
    authorization req = Some h
    /\ String.prefix "Bearer" scheme = true
    /\ header_shape h scheme tok rest.
Proof.
  unfold bearer_token. destruct (authorization req) as [h|]; [|discriminate].
  destruct (negb (String.eqb h "") && String.prefix "Bearer" h) eqn:E;
    [|discriminate].
  apply andb_true_iff in E. destruct E as [_ Hp]. intros Hn.
  pose proof (join_split space h) as Hj.
  pose proof (split_pieces space h) as Hpieces.
  destruct (split space h) as [|scheme [|tok' more]]; try discriminate.
  simpl in Hn. injection Hn as ->.
  assert (Hsch : has_char space scheme = false)
    by (apply Hpieces; left; reflexivity).
  assert (Htok : has_char space tok = false)
    by (apply Hpieces; right; left; reflexivity).
  exists h, scheme, (match more with [] => "" | _ => String space (join space more) end).
  assert (Hh : h = scheme ++ String space
                     (tok ++ match more with
                             | [] => ""
                             | _ => String space (join space more)
                             end)).
  { rewrite <- Hj. change (join space (scheme :: tok :: more))
      with (scheme ++ String space (join space (tok :: more))).
    destruct more as [|m ms]; [rewrite append_empty_r|]; reflexivity. }
  split; [reflexivity|]. split.
  - apply (prefix_before_sep space "Bearer" scheme
             (tok ++ match more with
                     | [] => ""
                     | _ => String space (join space more)
                     end)); [reflexivity|].
    rewrite <- Hh. exact Hp.
  - split; [exact Hh|]. split; [exact Hsch|]. split; [exact Htok|].
    destruct more as [|m ms]; [left; reflexivity|right; eexists; reflexivity].
Qed.

(** X1. The token [protect] reads is the second space-separated piece
    of a header whose first piece begins with "Bearer": the header is
    [scheme ++ " " ++ tok ++ rest] with no space in the scheme or the
    token, and the rest empty or set off by a further space. The scheme
    is only checked for its first six characters, and what follows the
    token is ignored. *)
Theorem bearer_token_shape :
  forall req tok,
    bearer_token req = Some tok
    <-> exists h scheme rest,
          authorization req = Some h
          /\ String.prefix "Bearer" scheme = true
          /\ header_shape h scheme tok rest.
Proof.
  intros req tok. split.
  - apply shape_of_bearer_token.
  - intros [h [scheme [rest [Ha [Hp Hs]]]]].
    apply (bearer_token_of_shape req h scheme tok rest Ha Hp Hs).
Qed.

(** X2. [protect] answers "You are not logged in" (401) exactly when no
    non-empty token can be read from the authorization header; every
    other outcome of the gate is a different one. *)
Theorem protect_not_logged_in_iff :
  forall req amb w,
    run (protect req amb) w = (w, NextErr NotLoggedIn)
    <-> ~ exists h scheme tok rest,
            authorization req = Some h
            /\ String.prefix "Bearer" scheme = true
            /\ header_shape h scheme tok rest
            /\ tok <> "".
Proof.
  intros req amb w. split.
  - intros Hrun [h [scheme [tok [rest [Ha [Hp [Hs Hne]]]]]]].
    pose proof (bearer_token_of_shape req h scheme tok rest Ha Hp Hs) as Ht.
    destruct (jwt_verify tok (JWT_SECRET cfg) (now amb)) as [e|d] eqn:Hv.
    + rewrite (protect_unverified req amb w tok e Ht Hne Hv) in Hrun.
      discriminate.
    + rewrite (protect_verified req amb w tok d Ht Hne Hv) in Hrun.
      destruct (find (has_id (d_id d)) (users w)) as [u|]; [|discriminate].
      destruct (changedPasswordAfter u (d_iat d)); discriminate.
  - intros Hno. apply protect_no_token.
    destruct (bearer_token req) as [tok|] eqn:Ht; [|reflexivity].
    simpl. apply String.eqb_eq.
    destruct (string_dec tok "") as [E|Hne]; [exact E|].
    exfalso. apply Hno.
    destruct (shape_of_bearer_token req tok Ht) as [h [scheme [rest [Ha [Hp Hs]]]]].
    exists h, scheme, tok, rest. repeat split; try assumption; apply Hs.
Qed.


(** *** Roles *)

Lemma includes_In r roles :
  existsb (String.eqb r) roles = true <-> In r roles.
Proof.
  rewrite existsb_exists. split.
  - intros [x [Hin E]]. apply String.eqb_eq in E. subst x. exact Hin.
  - intros Hin. exists r. split; [exact Hin|apply String.eqb_refl].
Qed.

Lemma restrictTo_run roles req w u :
  user req = Some u ->
  run (restrictTo roles req) w
  = (w, if existsb (String.eqb (role u)) roles
        then NextOk req else NextErr Forbidden).
Proof.
  intros Hu. unfold run, restrictTo. rewrite Hu.
  destruct (existsb (String.eqb (role u)) roles); reflexivity.
Qed.

(** X3. [restrictTo(...roles)] calls [next()] with the request as it is
    when the role of [req.user] is one of the listed roles, and
    [next] with an [AppError] of status 403 when it is not; with no
    role listed every identity is refused. Without [req.user] the
    middleware throws. It never touches the store. *)
Theorem restrictTo_by_role :
  forall roles req w,
    (forall u, user req = Some u ->
       (In (role u) roles ->
        run (restrictTo roles req) w = (w, NextOk req))
       /\ (~ In (role u) roles ->
           run (restrictTo roles req) w
           = (w, NextErr (mkAppError
                    "You do not have permission for this operation " 403))))
    /\ (user req = None ->
        run (restrictTo roles req) w = (w, Rejected TypeError)).
Proof.
  intros roles req w. split.
  - intros u Hu. rewrite (restrictTo_run roles req w u Hu). split.
    + intros Hin. apply includes_In in Hin. rewrite Hin. reflexivity.
    + intros Hnot.
      destruct (existsb (String.eqb (role u)) roles) eqn:E; [|reflexivity].
      apply includes_In in E. contradiction.
  - intros Hu. unfold run, restrictTo. rewrite Hu. reflexivity.
Qed.

Lemma protect_next req amb w w' rq :
  run (protect req amb) w = (w', NextOk rq) ->
  w' = w /\ exists u, In u (users w) /\ rq = set_user u req.
Proof.
  intros H.
  destruct (falsy (bearer_token req)) eqn:Hf.
  { rewrite (protect_no_token req amb w Hf) in H. discriminate. }
  apply falsy_false in Hf. destruct Hf as [tok [Ht Hne]].
  destruct (jwt_verify tok (JWT_SECRET cfg) (now amb)) as [e|d] eqn:Hv.
  { rewrite (protect_unverified req amb w tok e Ht Hne Hv) in H.
    discriminate. }
  rewrite (protect_verified req amb w tok d Ht Hne Hv) in H.
  destruct (find (has_id (d_id d)) (users w)) as [u|] eqn:Hu;
    [|discriminate].
  destruct (changedPasswordAfter u (d_iat d)); [discriminate|].
  injection H as <- <-. split; [reflexivity|].
  exists u. split; [|reflexivity]. apply find_some in Hu. apply Hu.
Qed.

(** X4. [restrictTo] run after [protect]. When [protect] has let a
    request through, [restrictTo] on the request it hands on never
    throws: it decides by the role of an identity of the store, letting
    the request through unchanged when that role is listed and
    answering 403 when it is not. *)
Theorem protect_then_restrictTo :
  forall roles req amb w w' rq,
    run (protect req amb) w = (w', NextOk rq) ->
    exists u,
      In u (users w') /\ user rq = Some u
      /\ (In (role u) roles ->
          run (restrictTo roles rq) w' = (w', NextOk rq))
      /\ (~ In (role u) roles ->
          run (restrictTo roles rq) w' = (w', NextErr Forbidden)).
Proof.
  intros roles req amb w w' rq H.
  apply protect_next in H. destruct H as [-> [u [Hin ->]]].
  exists u. split; [exact Hin|]. split; [reflexivity|].
  rewrite (restrictTo_run roles (set_user u req) w u eq_refl). split.
  - intros Hr. apply includes_In in Hr. rewrite Hr. reflexivity.
  - intros Hnot.
    destruct (existsb (String.eqb (role u)) roles) eqn:E; [|reflexivity].
    apply includes_In in E. contradiction.
Qed.

(** X5. [login], [protect] and [restrictTo] only read: whatever the
    request and whatever they answer, the collection and the outbox
    are afterwards what they were. *)
Theorem gates_and_login_read_only :
  forall roles req amb w,
    fst (run (login req amb) w) = w
    /\ fst (run (protect req amb) w) = w
    /\ fst (run (restrictTo roles req) w) = w.
Proof.
  intros roles req amb w.
  split; [apply login_keeps_world|]. split; [apply protect_keeps_world|].
  unfold run, restrictTo. destruct (user req) as [u|]; [|reflexivity].
  destruct (negb (existsb (String.eqb (role u)) roles)); reflexivity.
Qed.

(** *** Logging in *)

(** X6. [login] answers with a session exactly when the email and the
    password are both non-empty, some identity has the email, the
    password verifies against the first such identity, and the session
    can be issued: [jwt.sign] signs the identity's id and the cookie's
    expiry is a valid date. The answer is then status 200 and the store
    is left as it was. When the credentials verify but the session
    cannot be issued, the handler is rejected with the exception. *)
Theorem login_success_iff :
  forall req amb w w' r,
    run (login req amb) w = (w', Responded r)
    <-> exists u tok,
          falsy (body_email req) = false
          /\ falsy (body_password req) = false
          /\ find (by_email (body_email req)) (users w) = Some u
          /\ correctPassword (body_password req) (password u) = true
          /\ signToken (_id u) (now amb) = Some tok
          /\ valid_date (now amb
                         + JWT_COOKIE_EXPIRES_IN cfg * 24 * 60 * 60 * 1000)
             = true
          /\ createSignedToken u 200 (now amb) = inr r
          /\ status r = 200
          /\ w' = w.
Proof.
  intros req amb w w' r. rewrite login_run. split.
  - destruct (falsy (body_email req)); [discriminate|].
    destruct (falsy (body_password req)); [discriminate|]. cbn [orb].
    destruct (find (by_email (body_email req)) (users w)) as [u|];
      [|discriminate].
    destruct (correctPassword (body_password req) (password u)) eqn:Hc;
      [|discriminate].
    cbn [negb]. intros H. injection H as <- H. apply answer_responded in H.
    assert (Hr := H). unfold createSignedToken in H.
    destruct (signToken (_id u) (now amb)) as [tok|] eqn:Hs; [|discriminate].
    cbv zeta in H. cbn [expires] in H.
    destruct (valid_date (now amb
                          + JWT_COOKIE_EXPIRES_IN cfg * 24 * 60 * 60 * 1000))
      eqn:Hd; [|discriminate].
    exists u, tok. repeat split; try assumption.
    apply (createSignedToken_status _ _ _ _ Hr).
  - intros [u [tok [He [Hp [Hf [Hc [_ [_ [Hr [_ ->]]]]]]]]]].
    rewrite He, Hp. cbn [orb]. rewrite Hf, Hc. cbn [negb]. rewrite Hr.
    reflexivity.
Qed.

(** *** The session cookie *)

Lemma createSignedToken_cookie u code t r :
  createSignedToken u code t = inr r ->
  exists tok,
    cookie r = Some ("jwt", tok, session_cookie t)
    /\ field "token" match body r with JObj fs => fs | _ => [] end
       = Some (JStr tok).
Proof.
  intros H. apply createSignedToken_inr in H. destruct H as [tok [_ ->]].
  exists tok. split; reflexivity.
Qed.

(** X7. Every answer that carries a session sets one cookie, named
    "jwt", whose value is the token of the body. The cookie is
    [httpOnly] in every environment, [secure] exactly when NODE_ENV is
    "production", and expires JWT_COOKIE_EXPIRES_IN days after the
    request. *)
Theorem session_cookie_attributes :
  forall req amb w w' r,
    run (signup req amb) w = (w', Responded r)
    \/ run (login req amb) w = (w', Responded r)
    \/ run (resetPassword req amb) w = (w', Responded r)
    \/ run (updatePassword req amb) w = (w', Responded r) ->
    exists tok opts,
      cookie r = Some ("jwt", tok, opts)
      /\ field "token" match body r with JObj fs => fs | _ => [] end
         = Some (JStr tok)
      /\ httpOnly opts = true
      /\ secure opts = String.eqb (NODE_ENV cfg) "production"
      /\ expires opts
         = now amb + JWT_COOKIE_EXPIRES_IN cfg * 24 * 60 * 60 * 1000.
Proof.
  intros req amb w w' r H.
  assert (Hr : exists u code, createSignedToken u code (now amb) = inr r).
  { destruct H as [H | [H | [H | H]]].
    - apply signup_responds in H. destruct H as [u [_ H]]. eauto.
    - apply login_responds in H. destruct H as [u [_ H]]. eauto.
    - apply resetPassword_responds in H. destruct H as [u [_ H]]. eauto.
    - apply updatePassword_responds in H. destruct H as [u [_ H]]. eauto. }
  destruct Hr as [u [code Hr]].
  destruct (createSignedToken_cookie u code (now amb) r Hr) as [tok [Hc Hb]].
  exists tok, (session_cookie (now amb)).
  split; [exact Hc|]. split; [exact Hb|]. repeat split.
Qed.


(** *** The reset handshake, end to end *)

Lemma find_by_email_none v ds :
  find (by_email v) ds = None
  <-> forall d, In d ds -> Some (email d) <> v.
Proof.
  split.
  - intros Hnone d Hin E. apply (find_none _ _ Hnone) in Hin.
    unfold by_email in Hin. rewrite <- E in Hin.
    rewrite String.eqb_refl in Hin. discriminate.
  - intros Hall. destruct (find (by_email v) ds) as [d|] eqn:E; [|reflexivity].
    apply find_some in E. destruct E as [Hin Hm]. exfalso.
    apply (Hall d Hin). unfold by_email in Hm.
    destruct v as [e|]; [|discriminate].
    apply String.eqb_eq in Hm. congruence.
Qed.

Lemma find_by_email_some v ds u :
  find (by_email v) ds = Some u -> v = Some (email u).
Proof.
  intros E. apply find_some in E. destruct E as [_ Hm].
  unfold by_email in Hm. destruct v as [e|]; [|discriminate].
  apply String.eqb_eq in Hm. congruence.
Qed.

(** X8. [forgotPassword] tells a caller whether an email is registered:
    it calls [next] with the [AppError] "There is no user of the email
    address!", status 404, exactly when no identity has the requested
    email, and then neither writes to the store nor sends a mail. *)
Theorem forgotPassword_unknown_email_iff :
  forall req amb w,
    (snd (run (forgotPassword req amb) w)
     = NextErr (mkAppError "There is no user of the email address!" 404)
     <-> forall d, In d (users w) -> Some (email d) <> body_email req)
    /\ (snd (run (forgotPassword req amb) w) = NextErr NoSuchUser ->
        fst (run (forgotPassword req amb) w) = w).
Proof.
  intros req amb w. rewrite <- find_by_email_none.
  destruct (find (by_email (body_email req)) (users w)) as [u|] eqn:E.
  - rewrite (forgotPassword_some req amb w u E). cbv zeta.
    match goal with
    | |- context [transport ?m] => destruct (transport m)
    end; (split; [split; discriminate|discriminate]).
  - rewrite (forgotPassword_none req amb w E).
    split; [split; reflexivity|reflexivity].
Qed.

(** X9. The mail of [forgotPassword]. A run that answers has handed the
    notifier exactly one mail: to the requested email, with the subject
    " The reset token (valid for 10 minutes)" and the message built
    around the reset URL of the drawn plaintext. A run that does not
    answer, because the email is unknown or the notifier failed, leaves
    the outbox as it was. *)
Theorem forgotPassword_mail :
  forall req amb w,
    match snd (run (forgotPassword req amb) w) with
    | Responded _ =>
        exists e,
          body_email req = Some e
          /\ outbox (fst (run (forgotPassword req amb) w))
             = (outbox w
                ++ [mkMail e " The reset token (valid for 10 minutes)"
                      (responseMessage req (random_hex amb))])%list
    | _ => outbox (fst (run (forgotPassword req amb) w)) = outbox w
    end.
Proof.
  intros req amb w.
  destruct (find (by_email (body_email req)) (users w)) as [u|] eqn:E.
  - rewrite (forgotPassword_some req amb w u E). cbv zeta.
    match goal with
    | |- context [transport ?m] => destruct (transport m)
    end; cbn [fst snd outbox]; [|reflexivity].
    exists (email u). split; [apply (find_by_email_some _ _ _ E)|].
    unfold reset_mail. rewrite preSave_email. reflexivity.
  - rewrite (forgotPassword_none req amb w E). reflexivity.
Qed.

Lemma forgotPassword_stored req amb w w1 r :
  run (forgotPassword req amb) w = (w1, Responded r) ->
  exists u u2,
    find (by_email (body_email req)) (users w) = Some u
    /\ users w1 = replace_doc u2 (users w)
    /\ _id u2 = _id u /\ email u2 = email u
    /\ passwordResetToken u2 = Some (sha256hex (random_hex amb))
    /\ passwordResetExpires u2 = Some (now amb + reset_window).
Proof.
  intros H.
  destruct (find (by_email (body_email req)) (users w)) as [u|] eqn:E.
  - rewrite (forgotPassword_some req amb w u E) in H. cbv zeta in H.
    match type of H with
    | context [transport ?m] => destruct (transport m)
    end; [|discriminate].
    injection H as <- _. eexists. eexists. split; [reflexivity|].
    split; [reflexivity|].
    rewrite preSave_id, preSave_email, preSave_resetToken,
      preSave_resetExpires.
    repeat split.
  - rewrite (forgotPassword_none req amb w E) in H. discriminate.
Qed.

(** X10. The token that was mailed is the token that is accepted. After
    a [forgotPassword] that answered, with a plaintext whose digest no
    identity held before, a [resetPassword] carrying that plaintext
    finds the identity of the requested email as long as the clock is
    less than ten minutes past the request, and is refused with "The
    Token is invalid or expired" from ten minutes on. *)
Theorem forgot_then_reset :
  forall req amb w w1 r req2 amb2,
    fresh_token amb w ->
    run (forgotPassword req amb) w = (w1, Responded r) ->
    params_token req2 = random_hex amb ->
    (now amb2 < now amb + 10 * 60 * 1000 ->
     exists u,
       find (by_reset_token (sha256hex (params_token req2)) (now amb2))
            (users w1) = Some u
       /\ Some (email u) = body_email req
       /\ snd (run (resetPassword req2 amb2) w1) <> NextErr InvalidTokenError)
    /\ (now amb + 10 * 60 * 1000 <= now amb2 ->
        run (resetPassword req2 amb2) w1 = (w1, NextErr InvalidTokenError)).
Proof.
  intros req amb w w1 r req2 amb2 Hfresh Hrun Htok.
  apply forgotPassword_stored in Hrun.
  destruct Hrun as [u [u2 [Hfind [Hw1 [Hid [Hem [Ht He]]]]]]].
  pose proof (find_by_email_some _ _ _ Hfind) as Hreq.
  assert (Hin : In u (users w)) by (apply find_some in Hfind; apply Hfind).
  assert (Hin2 : In u2 (users w1))
    by (rewrite Hw1; apply (replace_doc_hit u2 _ u Hin); congruence).
  assert (Honly : forall d, In d (users w1) ->
                            passwordResetToken d
                            = Some (sha256hex (random_hex amb)) ->
                            d = u2).
  { intros d Hd Hdt. rewrite Hw1 in Hd. apply in_replace_doc in Hd.
    destruct Hd as [-> | [Hd _]]; [reflexivity|].
    exfalso. apply (Hfresh d Hd Hdt). }
  rewrite Htok. unfold reset_window in He. split.
  - intros Hlt.
    assert (Hlive : live_token (sha256hex (random_hex amb)) (now amb2) u2).
    { split; [exact Ht|]. eexists. split; [exact He|lia]. }
    destruct (find (by_reset_token (sha256hex (random_hex amb)) (now amb2))
                   (users w1)) as [d|] eqn:E.
    + exists d. split; [reflexivity|].
      assert (Hd := E). apply find_some in Hd. destruct Hd as [Hd Hm].
      apply by_reset_token_live in Hm.
      rewrite (Honly d Hd (proj1 Hm)). split; [congruence|].
      assert (E' : find (by_reset_token (sha256hex (params_token req2))
                           (now amb2)) (users w1) = Some d)
        by (rewrite Htok; exact E).
      rewrite (resetPassword_some req2 amb2 w1 d E').
      destruct (validate (reset_doc req2 d)); [discriminate|].
      cbn [snd]. apply answer_not_next_err.
    + exfalso. apply find_reset_none in E. apply E.
      exists u2. split; assumption.
  - intros Hge. apply resetPassword_none. rewrite Htok.
    apply find_reset_none. intros [d [Hd [Hdt [e [Hde Hlt]]]]].
    rewrite (Honly d Hd Hdt), He in Hde. injection Hde as <-. lia.
Qed.


(** *** What the writers leave alone *)

Lemma others_kept_refl id ds : others_kept id ds ds.
Proof. split; [reflexivity|]. intros i d H _. exact H. Qed.

Lemma others_kept_replace u ds : others_kept (_id u) ds (replace_doc u ds).
Proof.
  split; [apply length_map|].
  intros i d Hn Hne. unfold replace_doc.
  rewrite nth_error_map, Hn. simpl.
  assert (H : has_id (_id u) d = false) by (apply has_id_false; exact Hne).
  rewrite H. reflexivity.
Qed.

Lemma others_kept_trans id a b c :
  others_kept id a b -> others_kept id b c -> others_kept id a c.
Proof.
  intros [L1 H1] [L2 H2]. split; [congruence|].
  intros i d Hn Hne. apply H2; [apply H1; assumption|exact Hne].
Qed.

(** X11. A reset whose new password the store refuses consumes
    nothing. When the token is found but validation fails on save,
    [resetPassword] is rejected with the store's exception, the
    collection and the outbox are what they were, and so the same
    token is found again by the next request at that instant. *)
Theorem resetPassword_validation_failure :
  forall req amb w u msg,
    find (by_reset_token (sha256hex (params_token req)) (now amb)) (users w)
    = Some u ->
    validate (reset_doc req u) = Some msg ->
    run (resetPassword req amb) w = (w, Rejected (ValidationError msg))
    /\ forall req2,
         params_token req2 = params_token req ->
         find (by_reset_token (sha256hex (params_token req2)) (now amb))
              (users (fst (run (resetPassword req amb) w)))
         = Some u.
Proof.
  intros req amb w u msg Hfind Hval.
  assert (E : run (resetPassword req amb) w
              = (w, Rejected (ValidationError msg))).
  { rewrite (resetPassword_some req amb w u Hfind), Hval. reflexivity. }
  split; [exact E|]. intros req2 Htok. rewrite E, Htok. exact Hfind.
Qed.

(** X12. Each writing handler writes the record of one identity at
    most. [forgotPassword], [resetPassword] and [updatePassword] keep
    the collection's length and leave every document with another id
    than the one they found in its place, and [signup] only appends:
    the documents that were there stay as they were. Of the four only
    [forgotPassword] can add to the outbox. *)
Theorem writers_frame :
  forall req amb w,
    (exists id, others_kept id (users w)
                  (users (fst (run (forgotPassword req amb) w))))
    /\ (exists id, others_kept id (users w)
                     (users (fst (run (resetPassword req amb) w))))
    /\ (exists id, others_kept id (users w)
                     (users (fst (run (updatePassword req amb) w))))
    /\ (exists added, users (fst (run (signup req amb) w))
                      = (users w ++ added)%list
                      /\ (length added <= 1)%nat)
    /\ outbox (fst (run (resetPassword req amb) w)) = outbox w
    /\ outbox (fst (run (updatePassword req amb) w)) = outbox w
    /\ outbox (fst (run (signup req amb) w)) = outbox w.
Proof.
  intros req amb w.
  assert (Hreset :
    (exists id, others_kept id (users w)
                  (users (fst (run (resetPassword req amb) w))))
    /\ outbox (fst (run (resetPassword req amb) w)) = outbox w).
  { destruct (find (by_reset_token (sha256hex (params_token req)) (now amb))
                   (users w)) as [u|] eqn:E.
    - rewrite (resetPassword_some req amb w u E).
      destruct (validate (reset_doc req u)); cbn [fst users outbox].
      + split; [exists ""; apply others_kept_refl|reflexivity].
      + split; [|reflexivity]. eexists. apply others_kept_replace.
    - rewrite (resetPassword_none req amb w E).
      split; [exists ""; apply others_kept_refl|reflexivity]. }
  assert (Hupdate :
    (exists id, others_kept id (users w)
                  (users (fst (run (updatePassword req amb) w))))
    /\ outbox (fst (run (updatePassword req amb) w)) = outbox w).
  { rewrite updatePassword_run.
    destruct (user req) as [ru|];
      [|split; [exists ""; apply others_kept_refl|reflexivity]].
    destruct (find (has_id (_id ru)) (users w)) as [u|];
      [|split; [exists ""; apply others_kept_refl|reflexivity]].
    destruct (negb (correctPassword (body_currentPassword req) (password u)));
      [split; [exists ""; apply others_kept_refl|reflexivity]|].
    destruct (validate (update_doc req u)); cbn [fst users outbox].
    - split; [exists ""; apply others_kept_refl|reflexivity].
    - split; [|reflexivity]. eexists. apply others_kept_replace. }
  assert (Hsignup :
    (exists added, users (fst (run (signup req amb) w))
                   = (users w ++ added)%list /\ (length added <= 1)%nat)
    /\ outbox (fst (run (signup req amb) w)) = outbox w).
  { assert (Hsame : (exists added, users w = (users w ++ added)%list
                                   /\ (length added <= 1)%nat)
                    /\ outbox w = outbox w).
    { split; [|reflexivity]. exists []. rewrite app_nil_r.
      split; [reflexivity|apply Nat.le_0_l]. }
    rewrite signup_run.
    destruct (body_name req) as [n|]; [|exact Hsame].
    destruct (body_email req) as [e|]; [|exact Hsame].
    destruct (body_password req) as [p|]; [|exact Hsame].
    match goal with
    | |- context [validate ?d] => destruct (validate d)
    end; [exact Hsame|].
    destruct (existsb (by_email (Some (normalizeEmail e))) (users w));
      [exact Hsame|].
    cbn [fst users outbox]. split; [|reflexivity].
    eexists. split; [reflexivity|]. simpl. apply Nat.le_refl. }
  split.
  { destruct (find (by_email (body_email req)) (users w)) as [u|] eqn:E.
    - rewrite (forgotPassword_some req amb w u E). cbv zeta.
      match goal with
      | |- context [transport ?m] => destruct (transport m)
      end; cbn [fst users].
      + eexists. apply others_kept_replace.
      + set (u2 := preSave (now amb)
                     (passwordModified w (snd (createPasswordResetToken amb u)))
                     (snd (createPasswordResetToken amb u))).
        set (w1 := mkWorld (replace_doc u2 (users w)) (outbox w)).
        set (u3 := preSave (now amb) (passwordModified w1 (clear_reset u2))
                           (clear_reset u2)).
        assert (Hid2 : _id u2 = _id u)
          by (unfold u2; rewrite preSave_id; reflexivity).
        assert (Hid3 : _id u3 = _id u)
          by (unfold u3; rewrite preSave_id; exact Hid2).
        exists (_id u).
        apply (others_kept_trans _ _ (replace_doc u2 (users w))).
        * rewrite <- Hid2. apply others_kept_replace.
        * rewrite <- Hid3. apply others_kept_replace.
    - rewrite (forgotPassword_none req amb w E).
      exists "". apply others_kept_refl. }
  destruct Hreset as [R1 R2], Hupdate as [U1 U2], Hsignup as [S1 S2].
  repeat split; assumption.
Qed.


(** *** Failures and the store *)

Lemma createSignedToken_inl u code t x :
  createSignedToken u code t = inl x -> x = SignError \/ x = CookieError.
Proof.
  unfold createSignedToken. destruct (signToken (_id u) t);
    [|intros H; injection H as <-; left; reflexivity].
  cbv zeta. destruct (valid_date _); [discriminate|].
  intros H. injection H as <-. right. reflexivity.
Qed.

(** What is left when a run did not answer although a session was to be
    issued: the exception of [jwt.sign] or of [res.cookie]. *)
Lemma answer_unanswered a :
  (forall x, a = inl x -> x = SignError \/ x = CookieError) ->
  (forall r, answer a <> Responded r) ->
  answer a = Rejected SignError \/ answer a = Rejected CookieError.
Proof.
  intros Hx Hno. destruct a as [x|r].
  - destruct (Hx x eq_refl) as [-> | ->]; [left|right]; reflexivity.
  - exfalso. apply (Hno r). reflexivity.
Qed.

(** X13. A run that fails before the session is issued has written
    nothing. When [signup], [login], [resetPassword] or
    [updatePassword] ends in anything but a response, the collection
    and the outbox are what they were, unless the run got as far as
    [createSignedToken] and [jwt.sign] or [res.cookie] threw there:
    that is the one failure that can follow a write. [login] never
    writes at all. *)
Theorem failures_write_nothing :
  forall req amb w,
    ((forall r, snd (run (signup req amb) w) <> Responded r) ->
     fst (run (signup req amb) w) = w
     \/ snd (run (signup req amb) w) = Rejected SignError
     \/ snd (run (signup req amb) w) = Rejected CookieError)
    /\ fst (run (login req amb) w) = w
    /\ ((forall r, snd (run (resetPassword req amb) w) <> Responded r) ->
        fst (run (resetPassword req amb) w) = w
        \/ snd (run (resetPassword req amb) w) = Rejected SignError
        \/ snd (run (resetPassword req amb) w) = Rejected CookieError)
    /\ ((forall r, snd (run (updatePassword req amb) w) <> Responded r) ->
        fst (run (updatePassword req amb) w) = w
        \/ snd (run (updatePassword req amb) w) = Rejected SignError
        \/ snd (run (updatePassword req amb) w) = Rejected CookieError).
Proof.
  intros req amb w. split; [|split; [|split]].
  - rewrite signup_run.
    destruct (body_name req) as [n|]; [|left; reflexivity].
    destruct (body_email req) as [e|]; [|left; reflexivity].
    destruct (body_password req) as [p|]; [|left; reflexivity].
    match goal with
    | |- context [validate ?d] => destruct (validate d)
    end; [left; reflexivity|].
    destruct (existsb (by_email (Some (normalizeEmail e))) (users w));
      [left; reflexivity|].
    cbn [fst snd]. intros Hno. right.
    apply answer_unanswered; [apply createSignedToken_inl|exact Hno].
  - apply login_keeps_world.
  - destruct (find (by_reset_token (sha256hex (params_token req)) (now amb))
                   (users w)) as [u|] eqn:E.
    + rewrite (resetPassword_some req amb w u E).
      destruct (validate (reset_doc req u)); [left; reflexivity|].
      cbn [fst snd]. intros Hno. right.
      apply answer_unanswered; [apply createSignedToken_inl|exact Hno].
    + rewrite (resetPassword_none req amb w E). left. reflexivity.
  - rewrite updatePassword_run.
    destruct (user req) as [ru|]; [|left; reflexivity].
    destruct (find (has_id (_id ru)) (users w)) as [u|]; [|left; reflexivity].
    destruct (negb (correctPassword (body_currentPassword req) (password u)));
      [left; reflexivity|].
    destruct (validate (update_doc req u)); [left; reflexivity|].
    cbn [fst snd]. intros Hno. right.
    apply answer_unanswered; [apply createSignedToken_inl|exact Hno].
Qed.

(** X14. [updatePassword] changes a password only for a caller who
    shows the current one. It answers only when [req.user] is set, the
    identity with that id is in the store, the current password of the
    request verifies against the stored one, and the store accepts the
    new document; the answer is status 200 and the record written is
    the identity's own. *)
Theorem updatePassword_requires_current_password :
  forall req amb w w' r,
    run (updatePassword req amb) w = (w', Responded r) ->
    exists ru u,
      user req = Some ru
      /\ find (has_id (_id ru)) (users w) = Some u
      /\ _id u = _id ru
      /\ correctPassword (body_currentPassword req) (password u) = true
      /\ validate (update_doc req u) = None
      /\ status r = 200
      /\ others_kept (_id ru) (users w) (users w').
Proof.
  intros req amb w w' r. rewrite updatePassword_run.
  destruct (user req) as [ru|]; [|discriminate].
  destruct (find (has_id (_id ru)) (users w)) as [u|] eqn:E; [|discriminate].
  destruct (correctPassword (body_currentPassword req) (password u)) eqn:Hc;
    [|discriminate].
  cbn [negb].
  destruct (validate (update_doc req u)) eqn:Hv; [discriminate|].
  cbv zeta. intros H. injection H as <- H. apply answer_responded in H.
  assert (Hid : _id u = _id ru)
    by (apply find_some in E; apply has_id_true; apply E).
  exists ru, u. repeat split; try assumption; try reflexivity.
  - apply (createSignedToken_status _ _ _ _ H).
  - cbn [users]. apply length_map.
  - cbn [users]. intros i d Hn Hne.
    apply (others_kept_replace
             (preSave (now amb) (passwordModified w (update_doc req u))
                      (update_doc req u)) (users w)); [exact Hn|].
    rewrite preSave_id. simpl. congruence.
Qed.

(** X15. [signup] builds no error of its own and never calls [next]. A
    run is either rejected by [User.create] (a duplicate email or a
    document the store refuses) with the store unchanged, or appends
    one identity, which carries the id the store drew, the name and
    the role of the request (the default role when none is named) and
    the request's email in the store's normal form. After the append
    the run answers with status 201, unless [jwt.sign] or [res.cookie]
    throws: then it is rejected with that exception and the identity
    stays in the store. *)
Theorem signup_outcomes :
  forall req amb w,
    (run (signup req amb) w = (w, Rejected DuplicateKey)
     \/ exists msg,
          run (signup req amb) w = (w, Rejected (ValidationError msg)))
    \/ exists u n e,
         body_name req = Some n /\ body_email req = Some e
         /\ _id u = object_id amb
         /\ name u = n
         /\ email u = normalizeEmail e
         /\ role u = match body_role req with
                     | Some r => r
                     | None => defaultRole
                     end
         /\ fst (run (signup req amb) w)
            = mkWorld (users w ++ [u]) (outbox w)
         /\ ((exists r, snd (run (signup req amb) w) = Responded r
                        /\ status r = 201)
             \/ snd (run (signup req amb) w) = Rejected SignError
             \/ snd (run (signup req amb) w) = Rejected CookieError).
Proof.
  intros req amb w. rewrite signup_run.
  destruct (body_name req) as [n|]; [|left; right; eexists; reflexivity].
  destruct (body_email req) as [e|]; [|left; right; eexists; reflexivity].
  destruct (body_password req) as [p|]; [|left; right; eexists; reflexivity].
  match goal with
  | |- context [validate ?d] => destruct (validate d)
  end; [left; right; eexists; reflexivity|].
  destruct (existsb (by_email (Some (normalizeEmail e))) (users w));
    [left; left; reflexivity|].
  right. exists (signup_doc req amb n e p), n, e. cbn [fst snd].
  split; [reflexivity|]. split; [reflexivity|].
  split; [reflexivity|]. split; [reflexivity|]. split; [reflexivity|].
  split; [reflexivity|]. split; [reflexivity|].
  destruct (createSignedToken (signup_doc req amb n e p) 201 (now amb))
    as [x|r] eqn:Hc; cbn [answer].
  - right. destruct (createSignedToken_inl _ _ _ _ Hc) as [-> | ->];
      [left|right]; reflexivity.
  - left. exists r. split; [reflexivity|].
    apply (createSignedToken_status _ _ _ _ Hc).
Qed.

Lemma find_app_last (f : User -> bool) ds u :
  existsb f ds = false -> f u = true -> find f (ds ++ [u]) = Some u.
Proof.
  induction ds as [|d ds IH]; simpl; intros Hn Hu.
  - rewrite Hu. reflexivity.
  - apply orb_false_iff in Hn. destruct Hn as [Hd Hds].
    rewrite Hd. apply IH; assumption.
Qed.

(** X16. Signing up and logging in. Take a [signup] that answered, with
    a non-empty password and a non-empty email that is already in the
    store's normal form, and a credential check that accepts a password
    against its own hash. A [login] with that email and password is
    then never refused with an [AppError]: it finds the identity that
    signup created and ends in [createSignedToken] for it, so it
    answers with status 200 and a session for that identity whenever
    the token can be signed and the cookie date is valid. *)
Theorem signup_then_login :
  forall req amb w w' r req2 amb2 e p,
    (forall q, correctPassword (Some q) (Some (hashCredential q)) = true) ->
    run (signup req amb) w = (w', Responded r) ->
    body_email req = Some e -> body_password req = Some p ->
    normalizeEmail e = e ->
    e <> "" -> p <> "" ->
    body_email req2 = Some e -> body_password req2 = Some p ->
    exists u,
      In u (users w') /\ _id u = object_id amb
      /\ run (login req2 amb2) w'
         = (w', answer (createSignedToken u 200 (now amb2)))
      /\ (forall tok,
            signToken (object_id amb) (now amb2) = Some tok ->
            valid_date (now amb2
                        + JWT_COOKIE_EXPIRES_IN cfg * 24 * 60 * 60 * 1000)
            = true ->
            exists r2,
              run (login req2 amb2) w' = (w', Responded r2)
              /\ status r2 = 200
              /\ session_for (object_id amb) r2).
Proof.
  intros req amb w w' r req2 amb2 e p Hbcrypt Hrun He Hp Hnorm Hne Hnp
         He2 Hp2.
  rewrite signup_run, He, Hp in Hrun.
  destruct (body_name req) as [n|]; [|discriminate].
  match type of Hrun with
  | context [validate ?d] => destruct (validate d)
  end; [discriminate|].
  rewrite Hnorm in Hrun.
  destruct (existsb (by_email (Some e)) (users w)) eqn:Hnew; [discriminate|].
  injection Hrun as <- _.
  set (u := signup_doc req amb n e p).
  assert (Hfind : find (by_email (Some e)) (users w ++ [u]) = Some u).
  { apply find_app_last; [exact Hnew|]. simpl. rewrite Hnorm.
    apply String.eqb_refl. }
  assert (Hf1 : falsy (body_email req2) = false)
    by (apply falsy_false; exists e; split; assumption).
  assert (Hf2 : falsy (body_password req2) = false)
    by (apply falsy_false; exists p; split; assumption).
  assert (Hlogin : run (login req2 amb2)
                       (mkWorld (users w ++ [u]) (outbox w))
                   = (mkWorld (users w ++ [u]) (outbox w),
                      answer (createSignedToken u 200 (now amb2)))).
  { rewrite login_run, Hf1, Hf2. cbn [orb users]. rewrite He2, Hfind, Hp2.
    change (password u) with (Some (hashCredential p)).
    rewrite Hbcrypt. reflexivity. }
  exists u. split; [cbn [users]; apply in_or_app; right; left; reflexivity|].
  split; [reflexivity|]. split; [exact Hlogin|].
  intros tok Hs Hd.
  destruct (createSignedToken_ok u 200 (now amb2) tok Hs Hd) as [r2 [Hr Hst]].
  exists r2. rewrite Hlogin, Hr. split; [reflexivity|]. split; [exact Hst|].
  apply (createSignedToken_session u 200 (now amb2) r2 Hr).
Qed.


Lemma find_replace_doc (f : User -> bool) u2 ds u :
  find f ds = Some u -> _id u = _id u2 -> f u2 = true ->
  find f (replace_doc u2 ds) = Some u2.
Proof.
  intros Hfind Hid Hf. induction ds as [|d ds IH]; simpl in *; [discriminate|].
  destruct (f d) eqn:Hd.
  - injection Hfind as ->.
    assert (H : has_id (_id u2) u = true) by (apply has_id_true; exact Hid).
    rewrite H, Hf. reflexivity.
  - destruct (has_id (_id u2) d).
    + rewrite Hf. reflexivity.
    + rewrite Hd. apply IH. exact Hfind.
Qed.

(** X17. A newer reset request replaces the older token. When two
    [forgotPassword] requests for the same email have both answered,
    the first with a plaintext whose digest nobody held and the second
    with a plaintext of another digest, a [resetPassword] carrying the
    first plaintext is refused with "The Token is invalid or expired"
    at any instant. *)
Theorem newer_reset_request_supersedes :
  forall req1 amb1 req2 amb2 w w1 w2 r1 r2 req3 amb3,
    fresh_token amb1 w ->
    run (forgotPassword req1 amb1) w = (w1, Responded r1) ->
    body_email req2 = body_email req1 ->
    sha256hex (random_hex amb2) <> sha256hex (random_hex amb1) ->
    run (forgotPassword req2 amb2) w1 = (w2, Responded r2) ->
    params_token req3 = random_hex amb1 ->
    run (resetPassword req3 amb3) w2 = (w2, NextErr InvalidTokenError).
Proof.
  intros req1 amb1 req2 amb2 w w1 w2 r1 r2 req3 amb3
         Hfresh Hrun1 Hsame Hdiff Hrun2 Htok.
  apply forgotPassword_stored in Hrun1.
  destruct Hrun1 as [u [u2 [Hfind [Hw1 [Hid [Hem [Ht _]]]]]]].
  apply forgotPassword_stored in Hrun2.
  destruct Hrun2 as [u' [u4 [Hfind' [Hw2 [Hid' [_ [Ht' _]]]]]]].
  assert (Hu' : u' = u2).
  { rewrite Hsame, Hw1 in Hfind'.
    rewrite (find_replace_doc _ u2 _ u Hfind (eq_sym Hid)) in Hfind'.
    - congruence.
    - pose proof (find_by_email_some _ _ _ Hfind) as E.
      rewrite E. simpl. rewrite Hem. apply String.eqb_refl. }
  subst u'.
  apply resetPassword_none. rewrite Htok. apply find_reset_none.
  intros [d [Hd [Hdt _]]].
  rewrite Hw2 in Hd. apply in_replace_doc in Hd.
  destruct Hd as [-> | [Hd Hne]]; [congruence|].
  rewrite Hw1 in Hd. apply in_replace_doc in Hd.
  destruct Hd as [-> | [Hd _]]; [congruence|].
  apply (Hfresh d Hd Hdt).
Qed.

End Controller.

(** ** The controller on the sample collaborators *)

#[local] Existing Instance Sample.codec.

(** C1 on the sample store: an unknown email and Ana's email with a wrong
    password. *)
Lemma login_no_user_enumeration_witness :
  snd (run (login Sample.cfg Sample.correctPassword
              (Sample.with_body (Some "nobody@x.com") (Some "secret12") None)
              (Sample.at_ 0 "")) Sample.world)
  = snd (run (login Sample.cfg Sample.correctPassword
                (Sample.with_body (Some "ana@x.com") (Some "wrong") None)
                (Sample.at_ 5 "")) Sample.world)
  /\ run (login Sample.cfg Sample.correctPassword
            (Sample.with_body (Some "nobody@x.com") (Some "secret12") None)
            (Sample.at_ 0 "")) Sample.world
     = (Sample.world,
        NextErr (mkAppError " Incorrect email or password" 401))
  /\ run (login Sample.cfg Sample.correctPassword
            (Sample.with_body (Some "ana@x.com") (Some "wrong") None)
            (Sample.at_ 5 "")) Sample.world
     = (Sample.world,
        NextErr (mkAppError " Incorrect email or password" 401)).
Proof.
  apply (login_no_user_enumeration Sample.cfg Sample.correctPassword
           (Sample.with_body (Some "nobody@x.com") (Some "secret12") None)
           (Sample.with_body (Some "ana@x.com") (Some "wrong") None)
           (Sample.at_ 0 "") (Sample.at_ 5 "") Sample.world Sample.world
           Sample.ana); try reflexivity.
  intros d [<- | [<- | []]]; discriminate.
Defined.

(** C8 as stated fails: a login without an email is answered with status
    400, which is not the 401 of wrong credentials. *)
Lemma login_missing_email_is_400 :
  exists e,
    snd (run (login Sample.cfg Sample.correctPassword
                (Sample.with_body None (Some "secret12") None)
                (Sample.at_ 0 "")) Sample.world)
    = NextErr e
    /\ statusCode e = 400
    /\ statusCode e <> 401.
Proof.
  exists (mkAppError "Enter both password and email" 400).
  split; [reflexivity|]. split; [reflexivity|]. simpl. lia.
Defined.

(** C8 as the code has it, on a login without an email. *)
Lemma login_missing_fields_400_witness :
  run (login Sample.cfg Sample.correctPassword
         (Sample.with_body None (Some "secret12") None)
         (Sample.at_ 0 "")) Sample.world
  = (Sample.world, NextErr (mkAppError "Enter both password and email" 400))
  /\ statusCode MissingCredentials <> statusCode BadCredentials.
Proof.
  apply (login_missing_fields_400 Sample.cfg Sample.correctPassword
           (Sample.with_body None (Some "secret12") None)
           (Sample.at_ 0 "") Sample.world).
  left. reflexivity.
Defined.

(** C2 on the sample store: a token issued at instant 1000 for Ana, whose
    password changed at 1001. *)
Lemma protect_rejects_stale_session_witness :
  run (protect Sample.cfg (Sample.with_header "Bearer su1") (Sample.at_ 2000 ""))
      (mkWorld [Sample.ana_changed; Sample.bob] [])
  = (mkWorld [Sample.ana_changed; Sample.bob] [],
     NextErr (mkAppError "The user changed his/her ID recently!" 401))
  /\ forall rq,
      snd (run (protect Sample.cfg (Sample.with_header "Bearer su1")
                  (Sample.at_ 2000 ""))
               (mkWorld [Sample.ana_changed; Sample.bob] []))
      <> NextOk rq.
Proof.
  apply (protect_rejects_stale_session Sample.cfg
           (Sample.with_header "Bearer su1") (Sample.at_ 2000 "")
           (mkWorld [Sample.ana_changed; Sample.bob] [])
           "su1" (mkDecoded "u1" 1000) Sample.ana_changed 1001);
    try reflexivity.
  discriminate.
Defined.

(** C7 on the sample store: a token signed under another key. *)
Lemma protect_verification_failure_witness :
  run (protect Sample.cfg (Sample.with_header "Bearer abc") (Sample.at_ 2000 ""))
      Sample.world
  = (Sample.world, Rejected (JwtException JsonWebTokenError))
  /\ forall err,
      snd (run (protect Sample.cfg (Sample.with_header "Bearer abc")
                  (Sample.at_ 2000 "")) Sample.world)
      <> NextErr err.
Proof.
  apply (protect_verification_failure_unclassified Sample.cfg
           (Sample.with_header "Bearer abc") (Sample.at_ 2000 "")
           Sample.world "abc" JsonWebTokenError); try reflexivity.
  discriminate.
Defined.

(** C9 as stated fails: the header "Bearerish su1", whose scheme is
    "Bearerish" and not "Bearer", is not refused; the gate reads "su1"
    as the token and lets the request through with Ana attached. *)
Lemma protect_passes_bearerish_header :
  nth_error (split space "Bearerish su1") 0 = Some "Bearerish"
  /\ String.eqb "Bearerish" "Bearer" = false
  /\ run (protect Sample.cfg (Sample.with_header "Bearerish su1")
            (Sample.at_ 2000 "")) Sample.world
     = (Sample.world,
        NextOk (set_user Sample.ana (Sample.with_header "Bearerish su1"))).
Proof. split; [reflexivity|]. split; reflexivity. Defined.

(** C9 on the sample store: Ana's token is let through with Ana attached,
    and a request without a header is refused. *)
Lemma protect_stages_witness :
  run (protect Sample.cfg (Sample.with_header "Bearer su1") (Sample.at_ 2000 ""))
      Sample.world
  = (Sample.world, NextOk (set_user Sample.ana (Sample.with_header "Bearer su1")))
  /\ run (protect Sample.cfg Sample.request (Sample.at_ 2000 "")) Sample.world
     = (Sample.world, NextErr NotLoggedIn).
Proof.
  split.
  - destruct (protect_stages Sample.cfg (Sample.with_header "Bearer su1")
                (Sample.at_ 2000 "") Sample.world) as [_ [H _]].
    assert (Hne : "su1" <> "") by discriminate.
    exact (proj1 (H "su1" eq_refl Hne)).
  - destruct (protect_stages Sample.cfg Sample.request
                (Sample.at_ 2000 "") Sample.world) as [H _].
    exact (proj1 (H (or_introl eq_refl))).
Defined.

(** C3 on the sample store: Ana's token expires ten minutes after
    instant 0; at nine minutes it resets her password and the answer is
    status 200 with a session for her, at eleven it is refused. *)
Lemma resetPassword_invalid_token_witness :
  (exists w' r,
      run (resetPassword Sample.cfg Sample.sha256hex Sample.hashCredential
             Sample.validate
             (Sample.with_token "tok" (Some "newpass1") (Some "newpass1"))
             (mkAmbient (0 + (10 - 1) * 60000) "" "u9"))
          (mkWorld [Sample.ana_resetting; Sample.bob] [])
      = (w', Responded r)
      /\ status r = 200
      /\ session_for Sample.cfg (_id Sample.ana_resetting) r
      /\ forall d, In d (users w') -> _id d = _id Sample.ana_resetting ->
                   passwordResetToken d = None
                   /\ passwordResetExpires d = None)
  /\ run (resetPassword Sample.cfg Sample.sha256hex Sample.hashCredential
            Sample.validate
            (Sample.with_token "tok" (Some "newpass1") (Some "newpass1"))
            (mkAmbient (0 + (10 + 1) * 60000) "" "u9"))
         (mkWorld [Sample.ana_resetting; Sample.bob] [])
     = (mkWorld [Sample.ana_resetting; Sample.bob] [],
        NextErr InvalidTokenError).
Proof.
  destruct (resetPassword_invalid_token Sample.cfg Sample.sha256hex
              Sample.hashCredential Sample.validate
              (Sample.with_token "tok" (Some "newpass1") (Some "newpass1"))
              (Sample.at_ 0 "") (mkWorld [Sample.ana_resetting; Sample.bob] []))
    as [_ [_ H]].
  destruct (H 0 10 Sample.ana_resetting "" "u9")
    as [[_ [_ [Hok _]]] Hlate].
  - intros a b h [<- | [<- | []]] [<- | [<- | []]];
      try reflexivity; discriminate.
  - left. reflexivity.
  - reflexivity.
  - reflexivity.
  - split; [|exact Hlate].
    apply (Hok eq_refl "su1"); reflexivity.
Defined.

(** C4 on the sample store: the token "tok" resets Ana's password at nine
    minutes; ten seconds later, well before its expiry, the same token is
    refused. *)
Lemma resetPassword_single_use_witness :
  exists w1 r,
    run (resetPassword Sample.cfg Sample.sha256hex Sample.hashCredential
           Sample.validate
           (Sample.with_token "tok" (Some "newpass1") (Some "newpass1"))
           (Sample.at_ 540000 ""))
        (mkWorld [Sample.ana_resetting; Sample.bob] [])
    = (w1, Responded r)
    /\ run (resetPassword Sample.cfg Sample.sha256hex Sample.hashCredential
              Sample.validate
              (Sample.with_token "tok" (Some "other222") (Some "other222"))
              (Sample.at_ 550000 ""))
           w1
       = (w1, NextErr (mkAppError "The Token is invalid or expired" 400)).
Proof.
  eexists. eexists. split.
  - lazy. reflexivity.
  - eapply (resetPassword_single_use Sample.cfg Sample.sha256hex
             Sample.hashCredential Sample.validate
             (Sample.with_token "tok" (Some "newpass1") (Some "newpass1"))
             (Sample.at_ 540000 "")
             (mkWorld [Sample.ana_resetting; Sample.bob] []) _ _
             (Sample.with_token "tok" (Some "other222") (Some "other222"))
             (Sample.at_ 550000 "")).
    + intros a b h [<- | [<- | []]] [<- | [<- | []]];
        try reflexivity; discriminate.
    + lazy. reflexivity.
    + reflexivity.
Defined.

(** C5 on the sample store: the mail to Bob bounces. *)
Lemma forgotPassword_delivery_failure_witness :
  exists w',
    run (forgotPassword Sample.sha256hex Sample.hashCredential Sample.validate
           Sample.transport
           (Sample.with_body (Some "bounce@x.com") None None)
           (Sample.at_ 0 "c0ffee"))
        Sample.world
    = (w', NextErr (mkAppError
             "There was an error sending the email. Try some time later" 500))
    /\ outbox w' = outbox Sample.world
    /\ (exists d, In d (users w') /\ _id d = _id Sample.bob)
    /\ forall d, In d (users w') -> _id d = _id Sample.bob ->
                 passwordResetToken d = None
                 /\ passwordResetExpires d = None.
Proof.
  apply (forgotPassword_delivery_failure Sample.sha256hex
           Sample.hashCredential Sample.validate Sample.transport
           (Sample.with_body (Some "bounce@x.com") None None)
           (Sample.at_ 0 "c0ffee") Sample.world Sample.bob); reflexivity.
Defined.

(** C10 on the sample store: two requests for Ana with different random
    plaintexts are answered alike. *)
Lemma forgotPassword_response_token_independent_witness :
  snd (run (forgotPassword Sample.sha256hex Sample.hashCredential
              Sample.validate Sample.transport
              (Sample.with_body (Some "ana@x.com") None None)
              (Sample.at_ 0 "c0ffee")) Sample.world)
  = snd (run (forgotPassword Sample.sha256hex Sample.hashCredential
                Sample.validate Sample.transport
                (Sample.with_body (Some "ana@x.com") None None)
                (Sample.at_ 0 "decade")) Sample.world)
  /\ snd (run (forgotPassword Sample.sha256hex Sample.hashCredential
                 Sample.validate Sample.transport
                 (Sample.with_body (Some "ana@x.com") None None)
                 (Sample.at_ 0 "c0ffee")) Sample.world)
     = Responded token_sent.
Proof.
  edestruct (forgotPassword_response_token_independent Sample.sha256hex
               Sample.hashCredential Sample.validate Sample.transport
               (Sample.with_body (Some "ana@x.com") None None)
               (Sample.with_body (Some "ana@x.com") None None)
               (Sample.at_ 0 "c0ffee") (Sample.at_ 0 "decade")
               Sample.world Sample.world) as [E1 [E2 _]].
  - lazy. reflexivity.
  - lazy. reflexivity.
  - split; reflexivity.
Defined.

(** C6 on the sample store: Cy signs up and is answered with a session
    for the identity just created. *)
Lemma session_binds_identity_witness :
  exists w' r,
    run (signup Sample.cfg Sample.hashCredential Sample.validate "user"
           Sample.normalizeEmail
           (Sample.with_body (Some "cy@x.com") (Some "secret12")
                             (Some "secret12"))
           (Sample.at_ 0 ""))
        Sample.world
    = (w', Responded r)
    /\ (exists u, In u (users w') /\ session_for Sample.cfg (_id u) r)
    /\ exists u, users w' = (users Sample.world ++ [u])%list
                 /\ status r = 201 /\ session_for Sample.cfg (_id u) r.
Proof.
  eassert (E : run (signup Sample.cfg Sample.hashCredential Sample.validate
                      "user" Sample.normalizeEmail
                      (Sample.with_body (Some "cy@x.com") (Some "secret12")
                                        (Some "secret12"))
                      (Sample.at_ 0 ""))
                   Sample.world
               = (_, Responded _)) by (lazy; reflexivity).
  eexists. eexists. split; [exact E|].
  destruct (session_binds_identity_and_hides_hash Sample.cfg Sample.sha256hex
              Sample.hashCredential Sample.correctPassword Sample.validate
              "user" Sample.normalizeEmail
              (Sample.with_body (Some "cy@x.com") (Some "secret12")
                                (Some "secret12"))
              (Sample.at_ 0 "") Sample.world
              _ _ (or_introl E)) as [H1 H2].
  split; [exact H1|]. apply H2. exact E.
Defined.


(** ** The user router

    [src/route/userRoutes.js]: the routes in the order they are
    registered, and the way the Express router picks one for a request
    (case-insensitive paths, an optional trailing slash, one path
    segment per parameter, the first layer whose path and method both
    fit). *)

Section Router.

(** [decodeURIComponent], which the router applies to a parameter; it
    leaves a string without "%" as it is, so it is only consulted for
    the others. [None] stands for the URIError. *)
Variable decodeURIComponent : string -> option string.

(** The request methods the routes name, and PUT for any other. HEAD and
    OPTIONS, which the router treats on its own, are not among them. *)
Inductive Method := GET | POST | PATCH | DELETE | PUT.

(** The exports of the two controllers. *)
Inductive Handler :=
| h_signup | h_login | h_protect | h_restrictTo
| h_forgotPassword | h_resetPassword | h_updatePassword
| h_getAllUsers | h_getUser | h_createUser | h_updateUser | h_deleteUser.

Record Route := mkRoute {
  route_path : string;
  route_method : Method;
  route_stack : list Handler
}.

(** The router of the file; [router.route(p).get(a).post(b)] registers
    [a] and [b] under the one path [p]. *)
Definition router : list Route :=
  [ mkRoute "/signup" POST [h_signup];
    mkRoute "/login" POST [h_login];
    mkRoute "/forgotpassword" POST [h_forgotPassword];
    mkRoute "/resetpassword/:token" PATCH [h_resetPassword];
    mkRoute "/" GET [h_getAllUsers];
    mkRoute "/" POST [h_createUser];
    mkRoute "/:id" GET [h_getUser];
    mkRoute "/:id" PATCH [h_updateUser];
    mkRoute "/:id" DELETE [h_deleteUser] ].

Definition method_eqb (a b : Method) : bool :=
  match a, b with
  | GET, GET | POST, POST | PATCH, PATCH | DELETE, DELETE | PUT, PUT => true
  | _, _ => false
  end.

Definition slash : ascii := "/"%char.
Definition percent : ascii := "%"%char.

(** One trailing slash does not count. *)
Fixpoint strip_trailing (segs : list string) : list string :=
  match segs with
  | [] => []
  | [EmptyString] => []
  | s :: rest => s :: strip_trailing rest
  end.

(** The segments of a path or of a route's pattern: it begins with a
    slash, or is empty. *)
Definition segments (p : string) : option (list string) :=
  match split slash p with
  | EmptyString :: segs => Some (strip_trailing segs)
  | _ => None
  end.

Inductive Match :=
| NoMatch
| DecodeError
| Params (ps : list (string * string)).

Definition decode_param (v : string) : option string :=
  if has_char percent v then decodeURIComponent v else Some v.

(** A pattern against a path, segment by segment: a segment [:name]
    takes any non-empty segment, any other is compared without regard
    to case; parameters are decoded once the whole path fits. *)
Fixpoint match_segments (pats segs : list string) : Match :=
  match pats, segs with
  | [], [] => Params []
  | pat :: pats', seg :: segs' =>
      match pat with
      | String ":" nm =>
          if String.eqb seg "" then NoMatch
          else match match_segments pats' segs' with
               | Params ps =>
                   match decode_param seg with
                   | Some v => Params ((nm, v) :: ps)
                   | None => DecodeError
                   end
               | other => other
               end
      | _ =>
          if String.eqb (lower pat) (lower seg)
          then match_segments pats' segs'
          else NoMatch
      end
  | _, _ => NoMatch
  end.

(** What the router does with a request: it runs the stack of a route
    with the parameters of the path, answers 400 for a parameter that
    does not decode, or passes the request on. *)
Inductive Dispatch :=
| Run (stack : list Handler) (params : list (string * string))
| BadRequest
| NotFound.

Fixpoint dispatch_in (routes : list Route) (m : Method) (segs : list string)
  : Dispatch :=
  match routes with
  | [] => NotFound
  | r :: rest =>
      match segments (route_path r) with
      | None => dispatch_in rest m segs
      | Some pats =>
          match match_segments pats segs with
          | NoMatch => dispatch_in rest m segs
          | DecodeError => BadRequest
          | Params ps =>
              if method_eqb m (route_method r)
              then Run (route_stack r) ps
              else dispatch_in rest m segs
          end
      end
  end.

Definition dispatch (m : Method) (path : string) : Dispatch :=
  match segments path with
  | Some segs => dispatch_in router m segs
  | None => NotFound
  end.

(** The path under which [forgotPassword] expects the router. *)
Definition mount : string := "/api/v1/users".

(** A value that can stand as one segment of a path and comes back from
    the router as it is. *)
Definition plain_segment (s : string) : Prop :=
  s <> "" /\ has_char slash s = false /\ has_char percent s = false.

Lemma dispatch_in_stack routes m segs stack ps :
  dispatch_in routes m segs = Run stack ps ->
  exists r, In r routes /\ route_stack r = stack /\ route_method r = m.
Proof.
  induction routes as [|r rest IH]; simpl; [discriminate|].
  assert (Hrest : dispatch_in rest m segs = Run stack ps ->
                  exists r0, In r0 (r :: rest) /\ route_stack r0 = stack
                             /\ route_method r0 = m).
  { intros H. destruct (IH H) as [r0 [Hin Hs]]. exists r0.
    split; [right; exact Hin|exact Hs]. }
  destruct (segments (route_path r)) as [pats|]; [|exact Hrest].
  destruct (match_segments pats segs); [exact Hrest|discriminate|].
  destruct (method_eqb m (route_method r)) eqn:E; [|exact Hrest].
  intros H. injection H as <- <-. exists r.
  split; [left; reflexivity|]. split; [reflexivity|].
  destruct m, (route_method r); try discriminate; reflexivity.
Qed.

(** X18. No route is gated. Whatever the method and the path, a request
    the router takes runs a single handler, which is never [protect],
    [restrictTo] or [updatePassword]: the user routes, reading, changing
    and deleting identities among them, are reached without a session,
    and no route leads to [updatePassword]. *)
Theorem router_runs_one_ungated_handler :
  forall m path stack params,
    dispatch m path = Run stack params ->
    exists h,
      stack = [h]
      /\ h <> h_protect /\ h <> h_restrictTo /\ h <> h_updatePassword.
Proof.
  intros m path stack params. unfold dispatch.
  destruct (segments path) as [segs|]; [|discriminate].
  intros H. apply dispatch_in_stack in H.
  destruct H as [r [Hin [Hs _]]]. subst stack.
  simpl in Hin.
  repeat (destruct Hin as [<- | Hin];
          [eexists; split; [reflexivity|]; repeat split; discriminate|]).
  destruct Hin.
Qed.


Lemma strip_trailing_one seg : seg <> "" -> strip_trailing [seg] = [seg].
Proof. destruct seg; [congruence|reflexivity]. Qed.

Lemma segments_one seg :
  seg <> "" -> has_char slash seg = false ->
  segments (String slash seg) = Some [seg].
Proof.
  intros Hne Hs. unfold segments.
  change (String slash seg) with ("" ++ String slash seg).
  rewrite (split_app_sep slash "" seg eq_refl), (split_no_sep _ _ Hs).
  rewrite (strip_trailing_one seg Hne). reflexivity.
Qed.

Lemma segments_two a b :
  has_char slash a = false -> b <> "" -> has_char slash b = false ->
  segments (String slash (a ++ String slash b)) = Some [a; b].
Proof.
  intros Ha Hne Hb. unfold segments.
  change (String slash (a ++ String slash b))
    with ("" ++ String slash (a ++ String slash b)).
  rewrite (split_app_sep slash "" _ eq_refl), (split_app_sep _ _ _ Ha),
    (split_no_sep _ _ Hb).
  destruct b as [|c b]; [congruence|]. destruct a; reflexivity.
Qed.

Lemma match_param nm seg :
  plain_segment seg ->
  match_segments [String ":" nm] [seg] = Params [(nm, seg)].
Proof.
  intros [Hne [_ Hp]]. simpl. apply String.eqb_neq in Hne. rewrite Hne.
  unfold decode_param. rewrite Hp. reflexivity.
Qed.

(** The router on the segments of a path, route by route. *)
Lemma dispatch_in_router m segs :
  dispatch_in router m segs
  = let next8 :=
        match match_segments [":id"] segs with
        | NoMatch => NotFound
        | DecodeError => BadRequest
        | Params ps =>
            if method_eqb m DELETE then Run [h_deleteUser] ps else NotFound
        end in
    let next7 :=
        match match_segments [":id"] segs with
        | NoMatch => next8
        | DecodeError => BadRequest
        | Params ps =>
            if method_eqb m PATCH then Run [h_updateUser] ps else next8
        end in
    let next6 :=
        match match_segments [":id"] segs with
        | NoMatch => next7
        | DecodeError => BadRequest
        | Params ps =>
            if method_eqb m GET then Run [h_getUser] ps else next7
        end in
    let next5 :=
        match match_segments [] segs with
        | NoMatch => next6
        | DecodeError => BadRequest
        | Params ps =>
            if method_eqb m POST then Run [h_createUser] ps else next6
        end in
    let next4 :=
        match match_segments [] segs with
        | NoMatch => next5
        | DecodeError => BadRequest
        | Params ps =>
            if method_eqb m GET then Run [h_getAllUsers] ps else next5
        end in
    let next3 :=
        match match_segments ["resetpassword"; ":token"] segs with
        | NoMatch => next4
        | DecodeError => BadRequest
        | Params ps =>
            if method_eqb m PATCH then Run [h_resetPassword] ps else next4
        end in
    let next2 :=
        match match_segments ["forgotpassword"] segs with
        | NoMatch => next3
        | DecodeError => BadRequest
        | Params ps =>
            if method_eqb m POST then Run [h_forgotPassword] ps else next3
        end in
    let next1 :=
        match match_segments ["login"] segs with
        | NoMatch => next2
        | DecodeError => BadRequest
        | Params ps =>
            if method_eqb m POST then Run [h_login] ps else next2
        end in
    match match_segments ["signup"] segs with
    | NoMatch => next1
    | DecodeError => BadRequest
    | Params ps => if method_eqb m POST then Run [h_signup] ps else next1
    end.
Proof. reflexivity. Qed.

Lemma match_literal_one lit seg :
  (forall nm, lit <> String ":" nm) ->
  match_segments [lit] [seg]
  = if String.eqb (lower lit) (lower seg) then Params [] else NoMatch.
Proof.
  intros Hlit. simpl.
  destruct lit as [|c rest]; [reflexivity|].
  destruct c as [[] [] [] [] [] [] [] []]; try reflexivity.
  exfalso. apply (Hlit rest). reflexivity.
Qed.

(** X19. One-segment paths belong to the user routes. For a segment
    that is non-empty and holds neither "/" nor "%", the router hands
    GET, PATCH and DELETE of that path to [getUser], [updateUser] and
    [deleteUser] with the segment as [id]. This holds for the segments
    "signup" and "login" as well, whose own routes answer POST only. *)
Theorem router_one_segment :
  forall seg,
    plain_segment seg ->
    dispatch GET (String slash seg) = Run [h_getUser] [("id", seg)]
    /\ dispatch PATCH (String slash seg) = Run [h_updateUser] [("id", seg)]
    /\ dispatch DELETE (String slash seg) = Run [h_deleteUser] [("id", seg)].
Proof.
  intros seg Hplain. pose proof Hplain as [Hne [Hs Hp]].
  unfold dispatch. rewrite (segments_one seg Hne Hs).
  assert (Hlit : forall lit, (forall nm, lit <> String ":" nm) ->
                 match_segments [lit] [seg] = NoMatch
                 \/ match_segments [lit] [seg] = Params []).
  { intros lit Hl. rewrite (match_literal_one lit seg Hl).
    destruct (String.eqb (lower lit) (lower seg)); [right|left]; reflexivity. }
  assert (Hreset : match_segments ["resetpassword"; ":token"] [seg] = NoMatch).
  { change (match_segments ["resetpassword"; ":token"] [seg])
      with (if String.eqb (lower "resetpassword") (lower seg)
            then match_segments [":token"] [] else NoMatch).
    destruct (String.eqb (lower "resetpassword") (lower seg)); reflexivity. }
  assert (Hroot : match_segments [] [seg] = NoMatch) by reflexivity.
  pose proof (match_param "id" seg Hplain) as Hid.
  assert (H1 : forall nm, "signup" <> String ":" nm) by (intros nm; discriminate).
  assert (H2 : forall nm, "login" <> String ":" nm) by (intros nm; discriminate).
  assert (H3 : forall nm, "forgotpassword" <> String ":" nm)
    by (intros nm; discriminate).
  repeat split; rewrite dispatch_in_router; cbv zeta;
    rewrite Hreset, Hroot, Hid;
    destruct (Hlit "signup" H1) as [-> | ->];
    destruct (Hlit "login" H2) as [-> | ->];
    destruct (Hlit "forgotpassword" H3) as [-> | ->];
    reflexivity.
Qed.

(** X20. The link of the reset mail reaches [resetPassword]. The URL
    [forgotPassword] writes is the origin, the mount path
    "/api/v1/users" and the path "/resetPassword/" followed by the
    plaintext. For a plaintext that is non-empty and holds neither "/"
    nor "%", the router hands PATCH of that path to [resetPassword]
    with the plaintext as [req.params.token], although the route is
    registered in lower case; under any other method the path finds no
    route. *)
Theorem reset_link_routes_to_resetPassword :
  forall req tok,
    plain_segment tok ->
    resetUrl req tok
    = protocol req ++ "://" ++ host req ++ mount ++ "/resetPassword/" ++ tok
    /\ dispatch PATCH ("/resetPassword/" ++ tok)
       = Run [h_resetPassword] [("token", tok)]
    /\ forall m, m <> PATCH ->
                 dispatch m ("/resetPassword/" ++ tok) = NotFound.
Proof.
  intros req tok Hplain. pose proof Hplain as [Hne [Hs Hp]].
  split; [reflexivity|].
  assert (Hseg : segments ("/resetPassword/" ++ tok)
                 = Some ["resetPassword"; tok]).
  { apply (segments_two "resetPassword" tok eq_refl Hne Hs). }
  assert (Hreset : match_segments ["resetpassword"; ":token"]
                     ["resetPassword"; tok]
                   = Params [("token", tok)]).
  { change (match_segments ["resetpassword"; ":token"] ["resetPassword"; tok])
      with (match_segments [":token"] [tok]).
    apply (match_param "token" tok Hplain). }
  assert (Hrun : forall m,
             dispatch m ("/resetPassword/" ++ tok)
             = if method_eqb m PATCH
               then Run [h_resetPassword] [("token", tok)] else NotFound).
  { intros m. unfold dispatch. rewrite Hseg, dispatch_in_router. cbv zeta.
    rewrite Hreset.
    change (match_segments ["signup"] ["resetPassword"; tok]) with NoMatch.
    change (match_segments ["login"] ["resetPassword"; tok]) with NoMatch.
    change (match_segments ["forgotpassword"] ["resetPassword"; tok])
      with NoMatch.
    change (match_segments [] ["resetPassword"; tok]) with NoMatch.
    change (match_segments [":id"] ["resetPassword"; tok]) with NoMatch.
    reflexivity. }
  split.
  - rewrite Hrun. reflexivity.
  - intros m Hm. rewrite Hrun. destruct m; try reflexivity. congruence.
Qed.

End Router.


(** ** Further runs on the sample collaborators *)

(** X1 on a header with a longer scheme and a trailing piece. *)
Lemma bearer_token_shape_witness :
  bearer_token (Sample.with_header "Bearerish abc def") = Some "abc".
Proof.
  apply (proj2 (bearer_token_shape (Sample.with_header "Bearerish abc def")
                  "abc")).
  exists "Bearerish abc def", "Bearerish", " def".
  split; [reflexivity|]. split; [reflexivity|].
  split; [reflexivity|]. split; [reflexivity|]. split; [reflexivity|].
  right. exists "def". reflexivity.
Defined.

(** X4 on the sample store: Ana, a "user", against a route for admins
    and against a route for users. *)
Lemma protect_then_restrictTo_witness :
  exists u,
    In u (users Sample.world)
    /\ user (set_user Sample.ana (Sample.with_header "Bearer su1")) = Some u
    /\ (In (role u) ["admin"] ->
        run (restrictTo ["admin"]
               (set_user Sample.ana (Sample.with_header "Bearer su1")))
            Sample.world
        = (Sample.world,
           NextOk (set_user Sample.ana (Sample.with_header "Bearer su1"))))
    /\ (~ In (role u) ["admin"] ->
        run (restrictTo ["admin"]
               (set_user Sample.ana (Sample.with_header "Bearer su1")))
            Sample.world
        = (Sample.world, NextErr Forbidden)).
Proof.
  apply (protect_then_restrictTo Sample.cfg ["admin"]
           (Sample.with_header "Bearer su1") (Sample.at_ 2000 "")
           Sample.world Sample.world).
  reflexivity.
Defined.

(** X7 on the sample store: the cookie of a login. *)
Lemma session_cookie_attributes_witness :
  exists w' r,
    run (login Sample.cfg Sample.correctPassword
           (Sample.with_body (Some "ana@x.com") (Some "secret12") None)
           (Sample.at_ 1000 ""))
        Sample.world
    = (w', Responded r)
    /\ exists tok opts,
         cookie r = Some ("jwt", tok, opts)
         /\ field "token" match body r with JObj fs => fs | _ => [] end
            = Some (JStr tok)
         /\ httpOnly opts = true
         /\ secure opts = false
         /\ expires opts = 1000 + 90 * 24 * 60 * 60 * 1000.
Proof.
  eexists. eexists. split; [lazy; reflexivity|].
  apply (session_cookie_attributes Sample.cfg Sample.sha256hex
           Sample.hashCredential Sample.correctPassword Sample.validate
           "user" Sample.normalizeEmail
           (Sample.with_body (Some "ana@x.com") (Some "secret12") None)
           (Sample.at_ 1000 "") Sample.world Sample.world).
  right. left. reflexivity.
Defined.

(** X10 on the sample store: Ana asks for a reset at instant 0; the
    mailed token is taken a millisecond before ten minutes and refused
    at ten minutes. *)
Lemma forgot_then_reset_witness :
  exists w1 r,
    run (forgotPassword Sample.sha256hex Sample.hashCredential Sample.validate
           Sample.transport
           (Sample.with_body (Some "ana@x.com") None None)
           (Sample.at_ 0 "c0ffee"))
        Sample.world
    = (w1, Responded r)
    /\ (exists u,
           find (by_reset_token (Sample.sha256hex "c0ffee") 599999) (users w1)
           = Some u
           /\ Some (email u) = Some "ana@x.com"
           /\ snd (run (resetPassword Sample.cfg Sample.sha256hex
                          Sample.hashCredential Sample.validate
                          (Sample.with_token "c0ffee" (Some "newpass1")
                                             (Some "newpass1"))
                          (Sample.at_ 599999 "")) w1)
              <> NextErr InvalidTokenError)
    /\ run (resetPassword Sample.cfg Sample.sha256hex Sample.hashCredential
              Sample.validate
              (Sample.with_token "c0ffee" (Some "newpass1") (Some "newpass1"))
              (Sample.at_ 600000 "")) w1
       = (w1, NextErr InvalidTokenError).
Proof.
  eexists. eexists. split; [lazy; reflexivity|].
  assert (Hfresh : fresh_token Sample.sha256hex (Sample.at_ 0 "c0ffee")
                               Sample.world)
    by (intros d [<- | [<- | []]]; discriminate).
  split.
  - eapply (forgot_then_reset Sample.cfg Sample.sha256hex
              Sample.hashCredential Sample.validate Sample.transport
              (Sample.with_body (Some "ana@x.com") None None)
              (Sample.at_ 0 "c0ffee") Sample.world _ _
              (Sample.with_token "c0ffee" (Some "newpass1") (Some "newpass1"))
              (Sample.at_ 599999 "") Hfresh).
    + lazy. reflexivity.
    + reflexivity.
    + simpl. lia.
  - eapply (forgot_then_reset Sample.cfg Sample.sha256hex
              Sample.hashCredential Sample.validate Sample.transport
              (Sample.with_body (Some "ana@x.com") None None)
              (Sample.at_ 0 "c0ffee") Sample.world _ _
              (Sample.with_token "c0ffee" (Some "newpass1") (Some "newpass1"))
              (Sample.at_ 600000 "") Hfresh).
    + lazy. reflexivity.
    + reflexivity.
    + simpl. lia.
Defined.

(** X11 on the sample store: the two passwords of the reset differ. *)
Lemma resetPassword_validation_failure_witness :
  run (resetPassword Sample.cfg Sample.sha256hex Sample.hashCredential
         Sample.validate
         (Sample.with_token "tok" (Some "newpass1") (Some "newpass2"))
         (Sample.at_ 1000 ""))
      (mkWorld [Sample.ana_resetting; Sample.bob] [])
  = (mkWorld [Sample.ana_resetting; Sample.bob] [],
     Rejected (ValidationError "Passwords are not the same")).
Proof.
  apply (resetPassword_validation_failure Sample.cfg Sample.sha256hex
           Sample.hashCredential Sample.validate
           (Sample.with_token "tok" (Some "newpass1") (Some "newpass2"))
           (Sample.at_ 1000 "")
           (mkWorld [Sample.ana_resetting; Sample.bob] [])
           Sample.ana_resetting "Passwords are not the same");
    reflexivity.
Defined.

(** X14 on the sample store: Ana, attached to the request, changes her
    password. *)
Lemma updatePassword_requires_current_password_witness :
  exists ru u,
    Some Sample.ana = Some ru
    /\ find (has_id (_id ru)) (users Sample.world) = Some u
    /\ _id u = _id ru
    /\ Sample.correctPassword (Some "secret12") (password u) = true.
Proof.
  eassert (E : run (updatePassword Sample.cfg Sample.hashCredential
                      Sample.correctPassword Sample.validate
                      (mkRequest None None None (Some "newpass1")
                                 (Some "newpass1") (Some "secret12") None ""
                                 "https" "travel.io" (Some Sample.ana))
                      (Sample.at_ 1000 "")) Sample.world
               = (_, Responded _)) by (lazy; reflexivity).
  destruct (updatePassword_requires_current_password Sample.cfg
              Sample.hashCredential Sample.correctPassword Sample.validate
              (mkRequest None None None (Some "newpass1") (Some "newpass1")
                         (Some "secret12") None "" "https" "travel.io"
                         (Some Sample.ana))
              (Sample.at_ 1000 "") Sample.world
              _ _ E)
    as [ru [u [H1 [H2 [H3 [H4 _]]]]]].
  exists ru, u. repeat split; assumption.
Defined.

(** X16 on the sample store: Cy signs up and logs in. *)
Lemma signup_then_login_witness :
  exists w' r r2,
    run (signup Sample.cfg Sample.hashCredential Sample.validate "user"
           Sample.normalizeEmail
           (Sample.with_body (Some "cy@x.com") (Some "secret12")
                             (Some "secret12"))
           (Sample.at_ 0 ""))
        Sample.world
    = (w', Responded r)
    /\ run (login Sample.cfg Sample.correctPassword
              (Sample.with_body (Some "cy@x.com") (Some "secret12") None)
              (Sample.at_ 50 "")) w'
       = (w', Responded r2)
    /\ status r2 = 200
    /\ session_for Sample.cfg "u9" r2.
Proof.
  eassert (E : run (signup Sample.cfg Sample.hashCredential Sample.validate
                      "user" Sample.normalizeEmail
                      (Sample.with_body (Some "cy@x.com") (Some "secret12")
                                        (Some "secret12"))
                      (Sample.at_ 0 ""))
                   Sample.world
               = (_, Responded _)) by (lazy; reflexivity).
  assert (Hbcrypt : forall q, Sample.correctPassword (Some q)
                                (Some (Sample.hashCredential q)) = true)
    by (intros q; apply String.eqb_refl).
  assert (Hne : "cy@x.com" <> "") by discriminate.
  assert (Hnp : "secret12" <> "") by discriminate.
  destruct (signup_then_login Sample.cfg Sample.hashCredential
              Sample.correctPassword Sample.validate "user"
              Sample.normalizeEmail
              (Sample.with_body (Some "cy@x.com") (Some "secret12")
                                (Some "secret12"))
              (Sample.at_ 0 "") Sample.world _ _
              (Sample.with_body (Some "cy@x.com") (Some "secret12") None)
              (Sample.at_ 50 "") "cy@x.com" "secret12"
              Hbcrypt E eq_refl eq_refl eq_refl Hne Hnp eq_refl eq_refl)
    as [u [_ [_ [_ Hok]]]].
  destruct (Hok "su9" eq_refl eq_refl) as [r2 H].
  eexists. eexists. exists r2. split; [exact E|exact H].
Defined.

(** X17 on the sample store: Ana asks twice; the first token is dead. *)
Lemma newer_reset_request_supersedes_witness :
  exists w2,
    run (resetPassword Sample.cfg Sample.sha256hex Sample.hashCredential
           Sample.validate
           (Sample.with_token "c0ffee" (Some "newpass1") (Some "newpass1"))
           (Sample.at_ 2000 "")) w2
    = (w2, NextErr InvalidTokenError)
    /\ exists u, In u (users w2)
                 /\ passwordResetToken u = Some (Sample.sha256hex "decade").
Proof.
  eexists. split.
  - eapply (newer_reset_request_supersedes Sample.cfg Sample.sha256hex
              Sample.hashCredential Sample.validate Sample.transport
              (Sample.with_body (Some "ana@x.com") None None)
              (Sample.at_ 0 "c0ffee")
              (Sample.with_body (Some "ana@x.com") None None)
              (Sample.at_ 1000 "decade")
              Sample.world).
    + intros d [<- | [<- | []]]; discriminate.
    + lazy. reflexivity.
    + reflexivity.
    + discriminate.
    + lazy. reflexivity.
    + reflexivity.
  - eexists. split; [left; reflexivity|reflexivity].
Defined.

(** X18 on a request: POST /login runs [login] alone. *)
Lemma router_runs_one_ungated_handler_witness :
  exists h,
    [h_login] = [h]
    /\ h <> h_protect /\ h <> h_restrictTo /\ h <> h_updatePassword.
Proof.
  apply (router_runs_one_ungated_handler (fun _ => None) POST "/login"
           [h_login] []).
  reflexivity.
Defined.

(** X19 on the segment "signup". *)
Lemma router_one_segment_witness :
  dispatch (fun _ => None) GET "/signup" = Run [h_getUser] [("id", "signup")]
  /\ dispatch (fun _ => None) PATCH "/signup"
     = Run [h_updateUser] [("id", "signup")]
  /\ dispatch (fun _ => None) DELETE "/signup"
     = Run [h_deleteUser] [("id", "signup")].
Proof.
  apply (router_one_segment (fun _ => None) "signup").
  split; [discriminate|]. split; reflexivity.
Defined.

(** X20 on the plaintext "c0ffee". *)
Lemma reset_link_routes_to_resetPassword_witness :
  resetUrl Sample.request "c0ffee"
  = "https://travel.io/api/v1/users/resetPassword/c0ffee"
  /\ dispatch (fun _ => None) PATCH "/resetPassword/c0ffee"
     = Run [h_resetPassword] [("token", "c0ffee")]
  /\ dispatch (fun _ => None) GET "/resetPassword/c0ffee" = NotFound.
Proof.
  destruct (reset_link_routes_to_resetPassword (fun _ => None)
              Sample.request "c0ffee") as [H1 [H2 H3]].
  - split; [discriminate|]. split; reflexivity.
  - split; [exact H1|]. split; [exact H2|]. apply H3. discriminate.
Defined.
